(** * has.py: presence and version probe for command-line tools

    A shallow embedding of [src/has.py] and the properties of its
    behaviour.

    Modelling conventions.
    - A Python [str] is a Rocq [string], one [ascii] per character (code
      points below 256).  The two mark glyphs are kept as their UTF-8
      bytes; nothing below depends on their length.
    - The outside world is an [Env]: the answer of [shutil.which] for
      every name, the outcome of [subprocess.run] for every argument
      vector, and the two facts [setup_colors] looks at.
    - Effects are a writer of [event]s (path lookups, spawned processes,
      printed lines) over a result that is a value or a raised Python
      exception or a call of [sys.exit] (Python's [SystemExit], which no
      [except] clause of the program names).
    - The exit status of the process is the code handed to [sys.exit], or
      1 when another exception reaches the top level; what the host does
      with codes outside its range is not modelled. *)

From Stdlib Require Import String Ascii List ZArith Bool Lia.
Import ListNotations.
Local Open Scope string_scope.

(** ** Python string primitives *)

Module Py.

Definition LF : ascii := "010"%char.

(** [str.isspace] on one character, which is also the class [\s] of
    [re] on [str] patterns. *)
Definition isspace (c : ascii) : bool :=
  let n := nat_of_ascii c in
  ((9 <=? n)%nat && (n <=? 13)%nat) || ((28 <=? n)%nat && (n <=? 32)%nat)
  || (n =? 133)%nat || (n =? 160)%nat.

(** [s.lstrip()] *)
Fixpoint lstrip (s : string) : string :=
  match s with
  | String c s' => if isspace c then lstrip s' else s
  | EmptyString => s
  end.

(** [s.rstrip()] *)
Fixpoint rstrip (s : string) : string :=
  match s with
  | String c s' =>
      match rstrip s' with
      | EmptyString => if isspace c then EmptyString else String c EmptyString
      | t => String c t
      end
  | EmptyString => EmptyString
  end.

(** [s.strip()] *)
Definition strip (s : string) : string := rstrip (lstrip s).

(** [s.split('\n')[0]]: the text before the first line feed. *)
Fixpoint first_line (s : string) : string :=
  match s with
  | String c s' => if Ascii.eqb c LF then EmptyString else String c (first_line s')
  | EmptyString => EmptyString
  end.

(** [s.startswith(p)] *)
Definition startswith (s p : string) : bool := prefix p s.

(** [sub in s] *)
Definition contains (sub s : string) : bool :=
  match index 0 sub s with Some _ => true | None => false end.

(** Truth value of a [str]. *)
Definition truthy (s : string) : bool :=
  match s with EmptyString => false | _ => true end.

(** [s[:n]] *)
Definition take (n : nat) (s : string) : string := substring 0 n s.

(** [x in names] for a list of [str]. *)
Definition member (x : string) (names : list string) : bool :=
  existsb (String.eqb x) names.

End Py.

(** ** The fragment of [re] used by [detect_command]

  Patterns are matched by backtracking with greedy repetition, as
  [re] does; [match_k r k s] tries [r] at the start of [s] and hands
  what is left to the continuation [k], falling back to the next
  alternative when [k] fails. *)

Module Re.

Inductive cls : Type :=
| Lit (c : ascii)        (* an escaped, literal character *)
| Space                  (* \s *)
| Not (c : ascii).       (* [^c] *)

Inductive regex : Type :=
| Eps
| Atom (c : cls)
| Star (c : cls)         (* c*, greedy *)
| Opt (r : regex)        (* (r)?, greedy *)
| Seq (r1 r2 : regex).

Definition accepts (c : cls) (a : ascii) : bool :=
  match c with
  | Lit x => Ascii.eqb a x
  | Space => Py.isspace a
  | Not x => negb (Ascii.eqb a x)
  end.

Definition orelse {A} (x y : option A) : option A :=
  match x with Some _ => x | None => y end.

Fixpoint star_k (c : cls) (k : string -> option string) (s : string)
  : option string :=
  match s with
  | String a s' =>
      if accepts c a then orelse (star_k c k s') (k s) else k s
  | EmptyString => k s
  end.

Fixpoint match_k (r : regex) (k : string -> option string) (s : string)
  : option string :=
  match r with
  | Eps => k s
  | Atom c =>
      match s with
      | String a s' => if accepts c a then k s' else None
      | EmptyString => None
      end
  | Star c => star_k c k s
  | Opt r' => orelse (match_k r' k s) (k s)
  | Seq r1 r2 => match_k r1 (match_k r2 k) s
  end.

(** [re.escape(s)]: every character of [s] stands for itself. *)
Fixpoint escape (s : string) : regex :=
  match s with
  | String a s' => Seq (Atom (Lit a)) (escape s')
  | EmptyString => Eps
  end.

(** [re.sub('^' + r, '', s)].  Without [re.MULTILINE] the anchor holds
    at index 0 only, so at most the match at the start is replaced. *)
Definition sub_start (r : regex) (s : string) : string :=
  match match_k r Some s with
  | Some rest => rest
  | None => s
  end.

End Re.

(** ** The outside world and the effects of the program *)

(** The exceptions that can travel through the program.  [OSError]
    stands for an [OSError] that is neither of its two subclasses listed
    here (for instance errno 8, "Exec format error"). *)
Inductive exn : Type :=
| TimeoutExpired
| CalledProcessError
| FileNotFoundError
| PermissionError
| OSError
| UnicodeDecodeError.

(** [isinstance(e, subprocess.SubprocessError)] *)
Definition is_SubprocessError (e : exn) : bool :=
  match e with
  | TimeoutExpired | CalledProcessError => true
  | _ => false
  end.

(** [isinstance(e, FileNotFoundError)] *)
Definition is_FileNotFoundError (e : exn) : bool :=
  match e with
  | FileNotFoundError => true
  | _ => false
  end.

(** The object returned by [subprocess.run(..., capture_output=True,
    text=True)], reduced to the two fields the program reads. *)
Record CompletedProcess : Type := mkCompleted {
  returncode : Z;
  stdout : string
}.

(** What one call of [subprocess.run(argv, ..., timeout=2)] does. *)
Inductive outcome : Type :=
| Completes (result : CompletedProcess)
| Raises (e : exn).

Record Env : Type := mkEnv {
  which : string -> bool;            (* truth value of [shutil.which(cmd)] *)
  run : list string -> outcome;      (* [subprocess.run(argv, ...)] *)
  isatty : bool;                     (* [sys.stdout.isatty()] *)
  curses_ok : bool                   (* [import curses; curses.setupterm()] succeeds *)
}.

Inductive event : Type :=
| Which (cmd : string)
| Spawn (argv : list string)
| Print (text : string).

Inductive res (A : Type) : Type :=
| Val (a : A)
| Raise (e : exn)
| Exit (code : Z).        (* [SystemExit(code)] on its way up *)
Arguments Val {A} a.
Arguments Raise {A} e.
Arguments Exit {A} code.

(** A computation: the events it performs, in order, and how it ends. *)
Definition M (A : Type) : Type := list event * res A.

Definition ret {A} (a : A) : M A := ([], Val a).

Definition bind {A B} (m : M A) (f : A -> M B) : M B :=
  match m with
  | (l, Val a) => let (l', r) := f a in ((l ++ l')%list, r)
  | (l, Raise e) => (l, Raise e)
  | (l, Exit code) => (l, Exit code)
  end.

Notation "x <- m ;; k" := (bind m (fun x => k))
  (at level 61, m at next level, right associativity).
Notation "m ;;; k" := (bind m (fun _ => k))
  (at level 61, right associativity).

(** [try: body  except (classes): handler] *)
Definition try_except {A} (body : M A) (classes : exn -> bool) (handler : M A)
  : M A :=
  match body with
  | (l, Raise e) =>
      if classes e then let (l', r) := handler in ((l ++ l')%list, r)
      else (l, Raise e)
  | done => done
  end.

Definition trace {A} (m : M A) : list event := fst m.
Definition result {A} (m : M A) : res A := snd m.

Definition print (text : string) : M unit := ([Print text], Val tt).

Definition sys_exit {A} (code : Z) : M A := ([], Exit code).

Definition shutil_which (env : Env) (cmd : string) : M bool :=
  ([Which cmd], Val (which env cmd)).

Definition subprocess_run (env : Env) (argv : list string) : M CompletedProcess :=
  ([Spawn argv],
   match run env argv with
   | Completes r => Val r
   | Raises e => Raise e
   end).

(** The status the interpreter leaves with. *)
Definition exit_status {A} (r : res A) : Z :=
  match r with
  | Val _ => 0
  | Exit code => code
  | Raise _ => 1
  end.

(** ** The program *)

Definition BINARY_NAME : string := "has".
Definition VERSION : string := "v2.0.0".

Record Colors : Type := mkColors {
  reset : string;
  bold : string;
  red : string;
  green : string;
  yellow : string
}.

Definition ESC : string := String "027"%char EmptyString.

(** [color(code)] for the five codes the program uses. *)
Definition color (code : string) : string := ESC ++ "[" ++ code ++ "m".

Definition no_colors : Colors := mkColors "" "" "" "" "".

Definition setup_colors (env : Env) : Colors :=
  if negb (isatty env) then no_colors
  else if curses_ok env then
    mkColors (color "0") (color "1") (color "31") (color "32") (color "33")
  else no_colors.

Definition COLORS (env : Env) : Colors := setup_colors env.

Definition CHECKMARK : string :=
  String "226"%char (String "156"%char (String "147"%char EmptyString)).
Definition FANCYX : string :=
  String "226"%char (String "156"%char (String "151"%char EmptyString)).

Definition PASS (env : Env) : string :=
  bold (COLORS env) ++ green (COLORS env) ++ CHECKMARK ++ reset (COLORS env).
Definition FAIL (env : Env) : string :=
  bold (COLORS env) ++ red (COLORS env) ++ FANCYX ++ reset (COLORS env).

Definition NAME_DECORATION : string := "".
Definition VERSION_DECORATION : string := "".
Definition HELP_DECORATION : string := "".

Definition NL : string := String Py.LF EmptyString.

Definition help_text (env : Env) : string :=
  HELP_DECORATION ++ BINARY_NAME
    ++ " - checks presence of various command line tools" ++ NL
  ++ "usage:" ++ NL
  ++ "  " ++ BINARY_NAME ++ " tool [tool]..." ++ NL ++ NL
  ++ "examples:" ++ NL
  ++ "  " ++ BINARY_NAME ++ " git curl node" ++ NL
  ++ "  " ++ BINARY_NAME ++ " -v" ++ NL
  ++ "  " ++ BINARY_NAME ++ " --help" ++ reset (COLORS env).

Definition show_help (env : Env) : M unit := print (help_text env).

Definition version_flags : list string :=
  ["--version"; "-version"; "-v"; "version"; "-V"].

Definition shell_builtins : list string :=
  ["type"; "alias"; "bg"; "bind"; "break"; "builtin"; "caller"; "cd";
   "command"; "compgen"; "complete"; "continue"; "declare"; "dirs";
   "disown"; "echo"; "enable"; "eval"; "exec"; "exit"; "export"; "fc";
   "fg"; "getopts"; "hash"; "help"; "history"; "jobs"; "kill"; "let";
   "local"; "logout"; "mapfile"; "popd"; "printf"; "pushd"; "pwd";
   "read"; "readarray"; "readonly"; "return"; "set"; "shift"; "shopt";
   "source"; "suspend"; "test"; "times"; "trap"; "typeset"; "ulimit";
   "umask"; "unalias"; "unset"; "wait"].

(** The classes named by every [except] clause of [get_command_version]:
    [(subprocess.SubprocessError, FileNotFoundError)]. *)
Definition handled (e : exn) : bool :=
  is_SubprocessError e || is_FileNotFoundError e.

(** A block of [get_command_version] ends with [Some v] when it executed
    [return v], and with [None] when control falls out of it. *)
Definition or_next {A} (block : M (option A)) (next : M (option A))
  : M (option A) :=
  r <- block ;;
  match r with
  | Some v => ret (Some v)
  | None => next
  end.

Definition node_argv (cmd : string) : list string :=
  [cmd; "-e"; "console.log(process.version)"].

(** Lines 97-109. *)
Definition node_case (env : Env) (cmd : string) : M (option string) :=
  if String.eqb cmd "node" then
    try_except
      (result <- subprocess_run env (node_argv cmd) ;;
       if (returncode result =? 0)%Z
       then ret (Some (Py.strip (stdout result)))
       else ret None)
      handled
      (ret None)
  else ret None.

Definition builtin_argv (cmd : string) : list string :=
  ["bash"; "-c"; "type " ++ cmd].

(** Lines 111-131. *)
Definition builtin_case (env : Env) (cmd : string) : M (option string) :=
  if Py.member cmd shell_builtins then
    try_except
      (result <- subprocess_run env (builtin_argv cmd) ;;
       if (returncode result =? 0)%Z
          && Py.contains "shell builtin" (stdout result)
       then ret (Some "shell builtin")
       else ret None)
      handled
      (ret None)
  else ret None.

(** One turn of the loop of lines 134-146. *)
Definition try_flag (env : Env) (cmd flag : string) : M (option string) :=
  try_except
    (result <- subprocess_run env [cmd; flag] ;;
     if (returncode result =? 0)%Z && Py.truthy (stdout result)
     then ret (Some (Py.first_line (Py.strip (stdout result))))
     else ret None)
    handled
    (ret None).

Fixpoint flag_sweep (env : Env) (cmd : string) (flags : list string)
  : M (option string) :=
  match flags with
  | [] => ret None
  | flag :: rest => or_next (try_flag env cmd flag) (flag_sweep env cmd rest)
  end.

(** [get_command_version(cmd)]: [None] is Python's [None]. *)
Definition get_command_version (env : Env) (cmd : string) : M (option string) :=
  or_next (node_case env cmd)
    (or_next (builtin_case env cmd)
       (flag_sweep env cmd version_flags)).

(** The pattern of line 76:
    [^{re.escape(cmd)}\s*(\([^)]*\))?\s*], the anchor being part of
    [Re.sub_start]. *)
Definition pattern (cmd : string) : Re.regex :=
  Re.Seq (Re.escape cmd)
    (Re.Seq (Re.Star Re.Space)
       (Re.Seq
          (Re.Opt
             (Re.Seq (Re.Atom (Re.Lit "("))
                (Re.Seq (Re.Star (Re.Not ")")) (Re.Atom (Re.Lit ")")))))
          (Re.Star Re.Space))).

(** Lines 76-77: [re.sub(pattern, '', version)]. *)
Definition strip_name (cmd version : string) : string :=
  Re.sub_start (pattern cmd) version.

(** Lines 80-81. *)
Definition truncate (version : string) : string :=
  if Py.truthy version && (50 <? String.length version)%nat
  then Py.take 47 version ++ "..."
  else version.

Definition line_with_version (env : Env) (cmd version : string) : string :=
  PASS env ++ " " ++ NAME_DECORATION ++ cmd ++ reset (COLORS env)
  ++ " " ++ VERSION_DECORATION ++ version ++ reset (COLORS env).

Definition line_without_version (env : Env) (cmd : string) : string :=
  PASS env ++ " " ++ NAME_DECORATION ++ cmd ++ reset (COLORS env).

Definition line_not_found (env : Env) (cmd : string) : string :=
  FAIL env ++ " " ++ NAME_DECORATION ++ cmd ++ reset (COLORS env)
  ++ " command not found".

(** What lines 73-86 print for the value [get_command_version] gave. *)
Definition found_line (env : Env) (cmd : string) (version : option string)
  : string :=
  match version with
  | Some v =>
      if Py.truthy v
      then line_with_version env cmd (truncate (strip_name cmd v))
      else line_without_version env cmd
  | None => line_without_version env cmd
  end.

Definition detect_command (env : Env) (cmd : string) : M bool :=
  found <- shutil_which env cmd ;;
  if found then
    version <- get_command_version env cmd ;;
    print (found_line env cmd version) ;;;
    ret true
  else
    print (line_not_found env cmd) ;;;
    ret false.

(** The loop of lines 170-173, [fail_count] being its state. *)
Fixpoint check_each (env : Env) (cmds : list string) (fail_count : Z) : M Z :=
  match cmds with
  | [] => ret fail_count
  | cmd :: rest =>
      found <- detect_command env cmd ;;
      check_each env rest (if negb found then fail_count + 1 else fail_count)%Z
  end.

(** [main()], [args] being [sys.argv[1:]]. *)
Definition main (env : Env) (args : list string) : M unit :=
  match args with
  | [] => show_help env ;;; sys_exit 1
  | first :: _ =>
      if Py.startswith first "-" then
        if Py.member first ["-v"; "--version"] then
          print (BINARY_NAME ++ " " ++ VERSION) ;;; sys_exit 0
        else if Py.member first ["-h"; "--help"] then
          show_help env ;;; sys_exit 0
        else
          print ("Unknown option: " ++ first) ;;;
          show_help env ;;;
          sys_exit 1
      else
        fail_count <- check_each env args 0%Z ;;
        sys_exit fail_count
  end.

(** ** Notions used to state the properties *)

(** [p] taken off the front of [s], character for character. *)
Fixpoint drop_prefix (p s : string) : option string :=
  match p with
  | EmptyString => Some s
  | String a p' =>
      match s with
      | String b s' => if Ascii.eqb b a then drop_prefix p' s' else None
      | EmptyString => None
      end
  end.

(** The text after the first [")"] of [s], if there is one. *)
Fixpoint after_close (s : string) : option string :=
  match s with
  | String c s' => if Ascii.eqb c ")" then Some s' else after_close s'
  | EmptyString => None
  end.

(** A parenthesised annotation taken off the front of [s], when [s]
    opens with ["("] and the parenthesis is closed. *)
Definition drop_annotation (s : string) : string :=
  match s with
  | String c s' =>
      if Ascii.eqb c "(" then
        match after_close s' with
        | Some t => t
        | None => s
        end
      else s
  | EmptyString => s
  end.

(** What is left of [rest], the text after the name, once blanks, an
    annotation and blanks again are gone. *)
Definition after_name (rest : string) : string :=
  Py.lstrip (drop_annotation (Py.lstrip rest)).

(** The names looked up on the search path, in order. *)
Fixpoint lookups (l : list event) : list string :=
  match l with
  | Which cmd :: l' => cmd :: lookups l'
  | _ :: l' => lookups l'
  | [] => []
  end.

(** The argument vectors of the processes spawned, in order. *)
Fixpoint spawns (l : list event) : list (list string) :=
  match l with
  | Spawn argv :: l' => argv :: spawns l'
  | _ :: l' => spawns l'
  | [] => []
  end.

(** The event of one turn of the flag sweep. *)
Definition spawn_flag (cmd flag : string) : event := Spawn [cmd; flag].

(** A computation that ends with a value. *)
Definition settles {A} (m : M A) : Prop := exists v, result m = Val v.

(** A computation that performs no path lookup. *)
Definition no_lookup {A} (m : M A) : Prop := lookups (trace m) = [].

(** How many of [cmds] the search path does not have. *)
Definition not_found_count (env : Env) (cmds : list string) : Z :=
  Z.of_nat (List.length (filter (fun cmd => negb (which env cmd)) cmds)).

(** Every exception [subprocess.run] raises in [env] belongs to the
    classes the [except] clauses name. *)
Definition only_handled (env : Env) : Prop :=
  forall argv e, run env argv = Raises e -> handled e = true.

(** An attempt that gives no version: non-zero exit, empty output, or an
    exception of the handled classes. *)
Definition no_result (env : Env) (argv : list string) : Prop :=
  match run env argv with
  | Completes r => returncode r <> 0%Z \/ stdout r = ""
  | Raises e => handled e = true
  end.

Definition argv_eqb (a b : list string) : bool :=
  if list_eq_dec string_dec a b then true else false.

(** A world for examples: the names in [path] resolve, every process in
    [table] behaves as listed, every other one exits with status 1 and
    prints nothing; output does not go to a terminal. *)
Fixpoint table_run (table : list (list string * outcome)) (argv : list string)
  : outcome :=
  match table with
  | (a, o) :: table' => if argv_eqb a argv then o else table_run table' argv
  | [] => Completes (mkCompleted 1 "")
  end.

Definition world (path : list string) (table : list (list string * outcome))
  : Env :=
  mkEnv (fun cmd => Py.member cmd path) (table_run table) false false.

(** [curl] is installed and answers [--version]; nothing else is. *)
Definition curl_world : Env :=
  world ["curl"]
    [(["curl"; "--version"],
      Completes (mkCompleted 0
        ("curl (x86_64) 7.68.0" ++ NL ++ "Release-Date: 2020-01-08" ++ NL)))].

(** [tool] is on the path, but the host refuses to execute the file. *)
Definition broken_world : Env :=
  world ["tool"] [(["tool"; "--version"], Raises OSError)].

(** [tool] prints a first line with a trailing blank, then more. *)
Definition trailing_blank_output : string :=
  "1.0 " ++ NL ++ "build 7" ++ NL.
Definition trailing_blank_world : Env :=
  world ["tool"]
    [(["tool"; "--version"], Completes (mkCompleted 0 trailing_blank_output))].

(** [tool] rejects [--version], hangs on [-version], answers [-v]. *)
Definition late_flag_world : Env :=
  world ["tool"]
    [(["tool"; "--version"], Completes (mkCompleted 2 "usage: tool [-v]"));
     (["tool"; "-version"], Raises TimeoutExpired);
     (["tool"; "-v"], Completes (mkCompleted 0 ("tool 3.1" ++ NL)))].

(** [tool] prints a long first line. *)
Definition long_output : string :=
  "tool version 1.2.3 (build 0123456789abcdef, optimized, with extras)" ++ NL.
Definition long_world : Env :=
  world ["tool"] [(["tool"; "--version"], Completes (mkCompleted 0 long_output))].

(** [node] evaluates the expression and prints only a line feed. *)
Definition silent_node_world : Env :=
  world ["node"] [(node_argv "node", Completes (mkCompleted 0 NL))].

(** [git] prints its own name and nothing more. *)
Definition bare_name_world : Env :=
  world ["git"] [(["git"; "--version"], Completes (mkCompleted 0 ("git" ++ NL)))].

(** Nothing is installed. *)
Definition empty_world : Env := world [] [].

(** [realtool] is installed and reports no version. *)
Definition realtool_world : Env := world ["realtool"] [].

(** The texts printed, in order. *)
Fixpoint prints (l : list event) : list string :=
  match l with
  | Print text :: l' => text :: prints l'
  | _ :: l' => prints l'
  | [] => []
  end.

(** What [get_command_version] returns for [cmd], when it returns. *)
Definition version_of (env : Env) (cmd : string) : option string :=
  match result (get_command_version env cmd) with
  | Val version => version
  | _ => None
  end.

(** The line [detect_command] prints for [cmd]. *)
Definition report_line (env : Env) (cmd : string) : string :=
  if which env cmd then found_line env cmd (version_of env cmd)
  else line_not_found env cmd.

(** The argument vectors [get_command_version] may hand to
    [subprocess.run] for [cmd]. *)
Definition probe_argv (cmd : string) (argv : list string) : Prop :=
  (exists flag, In flag version_flags /\ argv = [cmd; flag])
  \/ (cmd = "node" /\ argv = [cmd; "-e"; "console.log(process.version)"])
  \/ (Py.member cmd shell_builtins = true /\ argv = ["bash"; "-c"; "type " ++ cmd]).


(** No white space at the front. *)
Definition no_leading_space (s : string) : Prop :=
  match s with
  | String c _ => Py.isspace c = false
  | EmptyString => True
  end.

(** No line feed inside. *)
Definition single_line (s : string) : Prop := Py.first_line s = s.

(** An attempt of the [node] block that returns nothing: non-zero exit,
    or an exception of the handled classes. *)
Definition node_gives_up (env : Env) : Prop :=
  match run env ["node"; "-e"; "console.log(process.version)"] with
  | Completes r => returncode r <> 0%Z
  | Raises e => handled e = true
  end.

(** The outcomes listed in a table are completions or handled
    exceptions. *)
Fixpoint table_handled (table : list (list string * outcome)) : bool :=
  match table with
  | (_, Raises e) :: table' => handled e && table_handled table'
  | _ :: table' => table_handled table'
  | [] => true
  end.

(** [curl] answers [--version]; [cd] is on the path and a builtin of
    [bash]; the evaluation call of [node] hangs, its [--version] works;
    [quiet] is on the path and reports nothing. *)
Definition mixed_world : Env :=
  world ["curl"; "cd"; "node"; "quiet"]
    [(["curl"; "--version"],
      Completes (mkCompleted 0 ("curl (x86_64) 7.68.0" ++ NL)));
     (["bash"; "-c"; "type cd"],
      Completes (mkCompleted 0 ("cd is a shell builtin" ++ NL)));
     (["node"; "-e"; "console.log(process.version)"], Raises TimeoutExpired);
     (["node"; "--version"], Completes (mkCompleted 0 ("v18.19.0" ++ NL)))].

(** [tool] answers [--version] with an empty line and [-v] with its
    version. *)
Definition blank_line_world : Env :=
  world ["tool"]
    [(["tool"; "--version"], Completes (mkCompleted 0 NL));
     (["tool"; "-v"], Completes (mkCompleted 0 ("tool 3.1" ++ NL)))].

(** ** Strings and patterns *)

Lemma drop_prefix_app (p rest : string) : drop_prefix p (p ++ rest) = Some rest.
Proof.
  induction p as [|a p IH]; simpl; [reflexivity|].
  now rewrite Ascii.eqb_refl.
Qed.

Lemma drop_prefix_some (p s rest : string) :
  drop_prefix p s = Some rest -> s = p ++ rest.
Proof.
  revert s; induction p as [|a p IH]; simpl; intros s H.
  - now inversion H.
  - destruct s as [|b s]; [discriminate|].
    destruct (Ascii.eqb_spec b a) as [->|]; [|discriminate].
    now rewrite (IH _ H).
Qed.

Lemma drop_prefix_not_prefix (p s : string) :
  prefix p s = false -> drop_prefix p s = None.
Proof.
  revert s; induction p as [|a p IH]; intros s H.
  - destruct s; discriminate.
  - destruct s as [|b s]; [reflexivity|].
    simpl in *. destruct (ascii_dec a b) as [->|Hab].
    + rewrite Ascii.eqb_refl. now apply IH.
    + destruct (Ascii.eqb_spec b a); congruence.
Qed.

Lemma match_escape (p : string) (k : string -> option string) (s : string) :
  Re.match_k (Re.escape p) k s =
  match drop_prefix p s with
  | Some rest => k rest
  | None => None
  end.
Proof.
  revert s; induction p as [|a p IH]; intros s; simpl; [reflexivity|].
  destruct s as [|b s]; [reflexivity|].
  destruct (Ascii.eqb b a); [apply IH | reflexivity].
Qed.

Lemma star_space_total (k : string -> option string) (s : string) :
  (forall t, k t <> None) ->
  Re.star_k Re.Space k s = k (Py.lstrip s).
Proof.
  intros Hk; induction s as [|c s IH]; simpl; [reflexivity|].
  destruct (Py.isspace c); [|reflexivity].
  rewrite IH. destruct (k (Py.lstrip s)) eqn:E; [reflexivity|].
  now apply Hk in E.
Qed.

Lemma star_space_end (s : string) :
  Re.star_k Re.Space Some s = Some (Py.lstrip s).
Proof. apply star_space_total; discriminate. Qed.

Lemma star_to_close (k : string -> option string) (s : string) :
  Re.star_k (Re.Not ")") (Re.match_k (Re.Atom (Re.Lit ")")) k) s =
  match after_close s with
  | Some t => k t
  | None => None
  end.
Proof.
  set (K := Re.match_k (Re.Atom (Re.Lit ")")) k).
  induction s as [|c s IH]; [reflexivity|].
  cbn [Re.star_k Re.accepts after_close].
  assert (HK : K (String c s) = if Ascii.eqb c ")" then k s else None)
    by reflexivity.
  rewrite HK, IH.
  destruct (Ascii.eqb c ")"); cbn [negb]; [reflexivity|].
  now destruct (after_close s) as [t|]; [destruct (k t)|].
Qed.

Lemma annotation_option (s : string) :
  Re.match_k
    (Re.Seq
       (Re.Opt
          (Re.Seq (Re.Atom (Re.Lit "("))
             (Re.Seq (Re.Star (Re.Not ")")) (Re.Atom (Re.Lit ")")))))
       (Re.Star Re.Space)) Some s
  = Some (Py.lstrip (drop_annotation s)).
Proof.
  set (K := Re.star_k Re.Space Some).
  destruct s as [|c s].
  - reflexivity.
  - change (Re.orelse
              (if Ascii.eqb c "("
               then Re.star_k (Re.Not ")")
                      (Re.match_k (Re.Atom (Re.Lit ")")) K) s
               else None)
              (K (String c s))
            = Some (Py.lstrip (drop_annotation (String c s)))).
    unfold drop_annotation. rewrite star_to_close.
    unfold K at 2. rewrite star_space_end.
    destruct (Ascii.eqb c "("); [|reflexivity].
    destruct (after_close s) as [t|]; [|reflexivity].
    unfold K. now rewrite star_space_end.
Qed.

(** The substitution of lines 76-77, read off the pattern: without the
    name at the front nothing changes; with it, the name goes, then
    blanks, a closed annotation if one follows, and blanks again. *)
Lemma strip_name_eq (cmd version : string) :
  strip_name cmd version =
  match drop_prefix cmd version with
  | Some rest => after_name rest
  | None => version
  end.
Proof.
  unfold strip_name, Re.sub_start, pattern.
  set (tail := Re.Seq (Re.Opt _) (Re.Star Re.Space)).
  change (Re.match_k (Re.Seq (Re.escape cmd) (Re.Seq (Re.Star Re.Space) tail))
            Some version)
    with (Re.match_k (Re.escape cmd)
            (Re.star_k Re.Space (Re.match_k tail Some)) version).
  rewrite match_escape.
  destruct (drop_prefix cmd version) as [rest|]; [|reflexivity].
  rewrite star_space_total.
  - unfold tail. now rewrite annotation_option.
  - intros t. unfold tail. now rewrite annotation_option.
Qed.

Lemma strip_name_other (cmd version : string) :
  Py.startswith version cmd = false -> strip_name cmd version = version.
Proof.
  intros H. rewrite strip_name_eq.
  now rewrite (drop_prefix_not_prefix _ _ H).
Qed.

Lemma strip_name_app (cmd rest : string) :
  strip_name cmd (cmd ++ rest) = after_name rest.
Proof. now rewrite strip_name_eq, drop_prefix_app. Qed.

(** ** Running computations *)

Lemma bind_val {A B} (l : list event) (a : A) (f : A -> M B) :
  bind (l, Val a) f = ((l ++ trace (f a))%list, result (f a)).
Proof. unfold bind, trace, result. now destruct (f a). Qed.

Lemma bind_raise {A B} (l : list event) (e : exn) (f : A -> M B) :
  bind (l, Raise e) f = (l, Raise e).
Proof. reflexivity. Qed.

Lemma or_next_return {A} (l : list event) (v : A) (next : M (option A)) :
  or_next (l, Val (Some v)) next = (l, Val (Some v)).
Proof. unfold or_next. rewrite bind_val. simpl. now rewrite app_nil_r. Qed.

Lemma or_next_fall {A} (l : list event) (next : M (option A)) :
  or_next (l, Val None) next = ((l ++ trace next)%list, result next).
Proof. unfold or_next. now rewrite bind_val. Qed.

Lemma or_next_raise {A} (l : list event) (e : exn) (next : M (option A)) :
  or_next (l, Raise e) next = (l, Raise e).
Proof. reflexivity. Qed.

Lemma lookups_app (l l' : list event) :
  lookups (l ++ l') = (lookups l ++ lookups l')%list.
Proof.
  induction l as [|[c|a|t] l IH]; simpl; congruence.
Qed.

Lemma spawns_app (l l' : list event) :
  spawns (l ++ l') = (spawns l ++ spawns l')%list.
Proof.
  induction l as [|[c|a|t] l IH]; simpl; congruence.
Qed.

(** *** One attempt of the flag sweep *)

Lemma try_flag_trace (env : Env) (cmd flag : string) :
  trace (try_flag env cmd flag) = [Spawn [cmd; flag]].
Proof.
  unfold try_flag, subprocess_run, try_except, bind, ret, trace.
  destruct (run env [cmd; flag]) as [r|e]; simpl.
  - now destruct (_ && _).
  - now destruct (handled e).
Qed.

Lemma try_flag_success (env : Env) (cmd flag out : string) :
  run env [cmd; flag] = Completes (mkCompleted 0 out) ->
  out <> "" ->
  try_flag env cmd flag
  = ([Spawn [cmd; flag]], Val (Some (Py.first_line (Py.strip out)))).
Proof.
  intros Hrun Hout.
  unfold try_flag, subprocess_run, try_except, bind, ret. rewrite Hrun. simpl.
  destruct out; [contradiction|reflexivity].
Qed.

Lemma try_flag_no_result (env : Env) (cmd flag : string) :
  no_result env [cmd; flag] ->
  try_flag env cmd flag = ([Spawn [cmd; flag]], Val None).
Proof.
  unfold no_result, try_flag, subprocess_run, try_except, bind, ret.
  destruct (run env [cmd; flag]) as [[rc out]|e]; simpl.
  - intros [Hrc| ->].
    + destruct (Z.eqb_spec rc 0); [contradiction|reflexivity].
    + now rewrite andb_false_r.
  - now intros ->.
Qed.

Lemma try_flag_unhandled (env : Env) (cmd flag : string) (e : exn) :
  run env [cmd; flag] = Raises e ->
  handled e = false ->
  try_flag env cmd flag = ([Spawn [cmd; flag]], Raise e).
Proof.
  intros Hrun He.
  unfold try_flag, subprocess_run, try_except, bind. rewrite Hrun. simpl.
  now rewrite He.
Qed.

(** *** The sweep *)

Lemma flag_sweep_exhausted (env : Env) (cmd : string) (flags : list string) :
  (forall flag, In flag flags -> no_result env [cmd; flag]) ->
  flag_sweep env cmd flags = (map (spawn_flag cmd) flags, Val None).
Proof.
  induction flags as [|flag flags IH]; intros H; [reflexivity|].
  simpl. rewrite try_flag_no_result by (apply H; now left).
  rewrite or_next_fall, IH by (intros; apply H; now right).
  reflexivity.
Qed.

Lemma flag_sweep_first_success (env : Env) (cmd : string)
    (before : list string) (flag : string) (after : list string)
    (out : string) :
  (forall f, In f before -> no_result env [cmd; f]) ->
  run env [cmd; flag] = Completes (mkCompleted 0 out) ->
  out <> "" ->
  flag_sweep env cmd (before ++ flag :: after)
  = (map (spawn_flag cmd) (before ++ [flag]),
     Val (Some (Py.first_line (Py.strip out)))).
Proof.
  intros Hbefore Hrun Hout.
  induction before as [|f before IH]; simpl.
  - now rewrite (try_flag_success _ _ _ _ Hrun Hout), or_next_return.
  - rewrite try_flag_no_result by (apply Hbefore; now left).
    rewrite or_next_fall, IH by (intros; apply Hbefore; now right).
    reflexivity.
Qed.

(** *** Where an exception can come from *)

Lemma or_next_settles {A} (block next : M (option A)) :
  settles block -> settles next -> settles (or_next block next).
Proof.
  destruct block as [l r]. intros [v Hv] Hnext. simpl in Hv. subst r.
  destruct v as [v|].
  - rewrite or_next_return. now exists (Some v).
  - rewrite or_next_fall. exact Hnext.
Qed.

Lemma or_next_no_lookup {A} (block next : M (option A)) :
  no_lookup block -> no_lookup next -> no_lookup (or_next block next).
Proof.
  unfold no_lookup. destruct block as [l [[v|]|e|code]]; intros Hb Hn.
  - now rewrite or_next_return.
  - rewrite or_next_fall. simpl in *. now rewrite lookups_app, Hb, Hn.
  - exact Hb.
  - exact Hb.
Qed.

Section Handled.

Variable env : Env.
Hypothesis Henv : only_handled env.

Lemma node_case_settles (cmd : string) : settles (node_case env cmd).
Proof.
  unfold node_case, settles. destruct (String.eqb cmd "node").
  - unfold subprocess_run, try_except, bind, ret.
    destruct (run env (node_argv cmd)) as [r|e] eqn:Hrun; simpl.
    + destruct (_ =? _)%Z; eexists; reflexivity.
    + rewrite (Henv _ _ Hrun). eexists; reflexivity.
  - now exists None.
Qed.

Lemma builtin_case_settles (cmd : string) : settles (builtin_case env cmd).
Proof.
  unfold builtin_case, settles. destruct (Py.member cmd shell_builtins).
  - unfold subprocess_run, try_except, bind, ret.
    destruct (run env (builtin_argv cmd)) as [r|e] eqn:Hrun; simpl.
    + destruct (_ && _); eexists; reflexivity.
    + rewrite (Henv _ _ Hrun). eexists; reflexivity.
  - now exists None.
Qed.

Lemma try_flag_settles (cmd flag : string) : settles (try_flag env cmd flag).
Proof.
  unfold try_flag, settles, subprocess_run, try_except, bind, ret.
  destruct (run env [cmd; flag]) as [r|e] eqn:Hrun; simpl.
  - destruct (_ && _); eexists; reflexivity.
  - rewrite (Henv _ _ Hrun). eexists; reflexivity.
Qed.

Lemma flag_sweep_settles (cmd : string) (flags : list string) :
  settles (flag_sweep env cmd flags).
Proof.
  induction flags as [|flag flags IH]; simpl.
  - now exists None.
  - apply or_next_settles; [apply try_flag_settles | exact IH].
Qed.

(** With only handled exceptions around, [get_command_version] returns. *)
Lemma get_command_version_settles (cmd : string) :
  settles (get_command_version env cmd).
Proof.
  unfold get_command_version.
  apply or_next_settles; [apply node_case_settles|].
  apply or_next_settles; [apply builtin_case_settles|].
  apply flag_sweep_settles.
Qed.

End Handled.

(** *** Shape of the trace of [get_command_version] *)

Lemma attempt_shape {A} (env : Env) (argv : list string)
    (read : CompletedProcess -> M (option A)) :
  (forall r, read r = ret None \/ exists v, read r = ret (Some v)) ->
  let m := try_except (result <- subprocess_run env argv ;; read result)
             handled (ret None) in
  trace m = [Spawn argv] /\ forall code, result m <> Exit code.
Proof.
  intros Hread. unfold subprocess_run, try_except, bind, ret, trace, result.
  destruct (run env argv) as [r|e]; simpl.
  - destruct (Hread r) as [-> | [v ->]]; simpl; split; (reflexivity || discriminate).
  - destruct (handled e); simpl; split; (reflexivity || discriminate).
Qed.

Lemma or_next_no_exit {A} (block next : M (option A)) :
  (forall code, result block <> Exit code) ->
  (forall code, result next <> Exit code) ->
  forall code, result (or_next block next) <> Exit code.
Proof.
  destruct block as [l [[v|]|e|c]]; intros Hb Hn code.
  - now rewrite or_next_return.
  - rewrite or_next_fall. apply Hn.
  - discriminate.
  - now destruct (Hb c).
Qed.

Lemma node_case_shape (env : Env) (cmd : string) :
  no_lookup (node_case env cmd)
  /\ forall code, result (node_case env cmd) <> Exit code.
Proof.
  unfold node_case, no_lookup. destruct (String.eqb cmd "node").
  - destruct (attempt_shape env (node_argv cmd)
      (fun result => if (returncode result =? 0)%Z
                     then ret (Some (Py.strip (stdout result)))
                     else ret None)) as [Ht Hr].
    + intros r. destruct (_ =? _)%Z; eauto.
    + split; [now rewrite Ht | exact Hr].
  - split; [reflexivity | discriminate].
Qed.

Lemma builtin_case_shape (env : Env) (cmd : string) :
  no_lookup (builtin_case env cmd)
  /\ forall code, result (builtin_case env cmd) <> Exit code.
Proof.
  unfold builtin_case, no_lookup. destruct (Py.member cmd shell_builtins).
  - destruct (attempt_shape env (builtin_argv cmd)
      (fun result => if (returncode result =? 0)%Z
                        && Py.contains "shell builtin" (stdout result)
                     then ret (Some "shell builtin")
                     else ret None)) as [Ht Hr].
    + intros r. destruct (_ && _); eauto.
    + split; [now rewrite Ht | exact Hr].
  - split; [reflexivity | discriminate].
Qed.

Lemma flag_sweep_shape (env : Env) (cmd : string) (flags : list string) :
  no_lookup (flag_sweep env cmd flags)
  /\ forall code, result (flag_sweep env cmd flags) <> Exit code.
Proof.
  induction flags as [|flag flags [IHt IHr]]; simpl.
  - split; [reflexivity | discriminate].
  - destruct (attempt_shape env [cmd; flag]
      (fun result => if (returncode result =? 0)%Z && Py.truthy (stdout result)
                     then ret (Some (Py.first_line (Py.strip (stdout result))))
                     else ret None)) as [Ht Hr].
    + intros r. destruct (_ && _); eauto.
    + split.
      * apply or_next_no_lookup; [|exact IHt].
        unfold no_lookup, try_flag. now rewrite Ht.
      * apply or_next_no_exit; [exact Hr | exact IHr].
Qed.

Lemma get_command_version_shape (env : Env) (cmd : string) :
  no_lookup (get_command_version env cmd)
  /\ forall code, result (get_command_version env cmd) <> Exit code.
Proof.
  unfold get_command_version.
  destruct (node_case_shape env cmd) as [Nt Nr].
  destruct (builtin_case_shape env cmd) as [Bt Br].
  destruct (flag_sweep_shape env cmd version_flags) as [Ft Fr].
  split.
  - apply or_next_no_lookup; [assumption|].
    apply or_next_no_lookup; assumption.
  - apply or_next_no_exit; [assumption|].
    apply or_next_no_exit; assumption.
Qed.

(** *** [detect_command] *)

Lemma detect_command_not_found (env : Env) (cmd : string) :
  which env cmd = false ->
  detect_command env cmd
  = ([Which cmd; Print (line_not_found env cmd)], Val false).
Proof.
  intros H. unfold detect_command, shutil_which. rewrite H. reflexivity.
Qed.

Lemma detect_command_found (env : Env) (cmd : string)
    (l : list event) (version : option string) :
  which env cmd = true ->
  get_command_version env cmd = (l, Val version) ->
  detect_command env cmd
  = ((Which cmd :: l ++ [Print (found_line env cmd version)])%list, Val true).
Proof.
  intros H Hv. unfold detect_command, shutil_which.
  rewrite H, bind_val. cbn beta iota.
  rewrite Hv. reflexivity.
Qed.

Lemma detect_command_raise (env : Env) (cmd : string)
    (l : list event) (e : exn) :
  which env cmd = true ->
  get_command_version env cmd = (l, Raise e) ->
  detect_command env cmd = (Which cmd :: l, Raise e).
Proof.
  intros H Hv. unfold detect_command, shutil_which.
  rewrite H, bind_val. cbn beta iota.
  rewrite Hv. reflexivity.
Qed.

Lemma detect_command_shape (env : Env) (cmd : string) :
  lookups (trace (detect_command env cmd)) = [cmd]
  /\ (forall code, result (detect_command env cmd) <> Exit code)
  /\ (forall found, result (detect_command env cmd) = Val found ->
      found = which env cmd).
Proof.
  destruct (which env cmd) eqn:H.
  - destruct (get_command_version_shape env cmd) as [Ht Hr].
    destruct (get_command_version env cmd) as [l [v|e|code]] eqn:Hv.
    + rewrite (detect_command_found _ _ _ _ H Hv). unfold no_lookup in Ht.
      simpl in *. rewrite lookups_app, Ht.
      repeat split; [discriminate | congruence].
    + rewrite (detect_command_raise _ _ _ _ H Hv).
      unfold no_lookup in Ht. simpl in *. rewrite Ht.
      repeat split; discriminate.
    + now destruct (Hr code).
  - rewrite (detect_command_not_found _ _ H).
    repeat split; simpl; [discriminate | congruence].
Qed.

(** *** The loop of [main] *)

Lemma not_found_count_cons (env : Env) (cmd : string) (rest : list string) :
  not_found_count env (cmd :: rest)
  = ((if which env cmd then 0 else 1) + not_found_count env rest)%Z.
Proof.
  unfold not_found_count. cbn [filter].
  destruct (which env cmd); cbn [negb List.length]; lia.
Qed.

Lemma not_found_count_nonneg (env : Env) (cmds : list string) :
  (0 <= not_found_count env cmds)%Z.
Proof. unfold not_found_count. lia. Qed.

Lemma not_found_count_zero (env : Env) (cmds : list string) :
  not_found_count env cmds = 0%Z <->
  forall cmd, In cmd cmds -> which env cmd = true.
Proof.
  induction cmds as [|c cmds IH].
  - split; [intros _ cmd [] | reflexivity].
  - rewrite not_found_count_cons.
    pose proof (not_found_count_nonneg env cmds) as Hge.
    destruct (which env c) eqn:Hc; split.
    + intros H cmd [<-|Hin]; [exact Hc|]. apply IH; [lia | exact Hin].
    + intros H. apply IH. intros cmd Hin. apply H. now right.
    + lia.
    + intros H. specialize (H c (or_introl eq_refl)). congruence.
Qed.

Lemma check_each_step (env : Env) (cmd : string) (rest : list string)
    (fail_count : Z) (l : list event) (found : bool) :
  detect_command env cmd = (l, Val found) ->
  check_each env (cmd :: rest) fail_count
  = let next := check_each env rest
                  (if negb found then fail_count + 1 else fail_count)%Z in
    ((l ++ trace next)%list, result next).
Proof. intros H. simpl. now rewrite H, bind_val. Qed.

Lemma check_each_val (env : Env) (cmds : list string) (fail_count total : Z) :
  result (check_each env cmds fail_count) = Val total ->
  total = (fail_count + not_found_count env cmds)%Z
  /\ lookups (trace (check_each env cmds fail_count)) = cmds.
Proof.
  revert fail_count. induction cmds as [|cmd rest IH]; intros n H.
  - simpl in H. inversion H. unfold not_found_count. simpl. split; [lia | reflexivity].
  - destruct (detect_command_shape env cmd) as (Hl & _ & Hf).
    destruct (detect_command env cmd) as [l [found|e|code]] eqn:Hd.
    + rewrite (check_each_step _ _ _ _ _ _ Hd) in *. cbv zeta in *.
      simpl in H, Hl. destruct (IH _ H) as [Ht Hr].
      specialize (Hf found eq_refl). subst found.
      rewrite not_found_count_cons. simpl. rewrite lookups_app, Hl, Hr.
      split; [|reflexivity].
      destruct (which env cmd); simpl in Ht; lia.
    + simpl in H. rewrite Hd in H. discriminate.
    + simpl in H. rewrite Hd in H. discriminate.
Qed.

Lemma check_each_no_exit (env : Env) (cmds : list string) (fail_count : Z) :
  forall code, result (check_each env cmds fail_count) <> Exit code.
Proof.
  revert fail_count. induction cmds as [|cmd rest IH]; intros n code.
  - discriminate.
  - destruct (detect_command_shape env cmd) as (_ & He & _).
    destruct (detect_command env cmd) as [l [found|e|c]] eqn:Hd.
    + rewrite (check_each_step _ _ _ _ _ _ Hd). apply IH.
    + simpl. rewrite Hd. discriminate.
    + now destruct (He c).
Qed.

Lemma detect_command_settles (env : Env) (cmd : string) :
  only_handled env -> settles (detect_command env cmd).
Proof.
  intros Henv. destruct (which env cmd) eqn:H.
  - destruct (get_command_version_settles env Henv cmd) as [v Hv].
    destruct (get_command_version env cmd) as [l r] eqn:Hg.
    simpl in Hv. subst r.
    rewrite (detect_command_found _ _ _ _ H Hg). now exists true.
  - rewrite (detect_command_not_found _ _ H). now exists false.
Qed.

Lemma check_each_settles (env : Env) (cmds : list string) (fail_count : Z) :
  only_handled env -> settles (check_each env cmds fail_count).
Proof.
  intros Henv. revert fail_count.
  induction cmds as [|cmd rest IH]; intros n.
  - now exists n.
  - destruct (detect_command_settles env cmd Henv) as [found Hf].
    destruct (detect_command env cmd) as [l r] eqn:Hd. simpl in Hf. subst r.
    rewrite (check_each_step _ _ _ _ _ _ Hd). apply IH.
Qed.

Lemma check_each_lookups (env : Env) (cmds : list string) (fail_count : Z) :
  exists k, lookups (trace (check_each env cmds fail_count)) = firstn k cmds.
Proof.
  revert fail_count. induction cmds as [|cmd rest IH]; intros n.
  - now exists 0%nat.
  - destruct (detect_command_shape env cmd) as (Hl & He & _).
    destruct (detect_command env cmd) as [l [found|e|c]] eqn:Hd; simpl in Hl.
    + rewrite (check_each_step _ _ _ _ _ _ Hd). cbv zeta.
      destruct (IH (if negb found then n + 1 else n)%Z) as [k Hk].
      exists (S k). simpl. now rewrite lookups_app, Hl, Hk.
    + exists 1%nat. simpl. rewrite Hd. simpl. now rewrite Hl.
    + now destruct (He c).
Qed.

(** *** [main] *)

Lemma main_probes (env : Env) (first : string) (rest : list string) :
  Py.startswith first "-" = false ->
  main env (first :: rest)
  = (fail_count <- check_each env (first :: rest) 0%Z ;; sys_exit fail_count).
Proof. intros H. unfold main. now rewrite H. Qed.

Lemma main_exit (env : Env) (first : string) (rest : list string) (code : Z) :
  Py.startswith first "-" = false ->
  result (main env (first :: rest)) = Exit code ->
  code = not_found_count env (first :: rest)
  /\ lookups (trace (main env (first :: rest))) = first :: rest.
Proof.
  intros H. rewrite (main_probes _ _ _ H).
  pose proof (check_each_no_exit env (first :: rest) 0) as Hne.
  pose proof (check_each_val env (first :: rest) 0) as Hv.
  destruct (check_each env (first :: rest) 0) as [l [total|e|c]].
  - rewrite bind_val. simpl. intros [= <-].
    destruct (Hv total eq_refl) as [-> Hl]. simpl in Hl.
    rewrite app_nil_r. split; [lia | exact Hl].
  - discriminate.
  - now destruct (Hne c).
Qed.

(** With only handled exceptions around, a probing run ends in
    [sys.exit] with the number of names not found. *)
Lemma main_counts (env : Env) (first : string) (rest : list string) :
  only_handled env ->
  Py.startswith first "-" = false ->
  result (main env (first :: rest))
  = Exit (not_found_count env (first :: rest)).
Proof.
  intros Henv H.
  destruct (check_each_settles env (first :: rest) 0 Henv) as [total Ht].
  destruct (check_each_val _ _ _ _ Ht) as [-> _].
  rewrite (main_probes _ _ _ H).
  destruct (check_each env (first :: rest) 0) as [l r]. simpl in Ht. subst r.
  rewrite bind_val. reflexivity.
Qed.

(** *** Lengths and slices *)

Lemma length_app (a b : string) :
  String.length (a ++ b) = String.length a + String.length b.
Proof. induction a as [|c a IH]; simpl; congruence. Qed.

Lemma take_length (n : nat) (s : string) :
  n <= String.length s -> String.length (Py.take n s) = n.
Proof.
  unfold Py.take. revert s; induction n as [|n IH]; intros s H.
  - now destruct s.
  - destruct s as [|c s]; simpl in *; [lia|].
    rewrite IH; [reflexivity | lia].
Qed.

Lemma take_is_prefix (n : nat) (s : string) :
  exists tail, s = Py.take n s ++ tail.
Proof.
  unfold Py.take. revert s; induction n as [|n IH]; intros s.
  - exists s. now destruct s.
  - destruct s as [|c s]; simpl.
    + now exists "".
    + destruct (IH s) as [tail Ht]. exists tail. now rewrite <- Ht.
Qed.

Lemma truncate_long (version : string) :
  50 < String.length version ->
  truncate version = Py.take 47 version ++ "..."
  /\ String.length (truncate version) = 50.
Proof.
  intros H. unfold truncate.
  destruct version as [|c v]; [simpl in H; lia|].
  cbn [Py.truthy andb].
  destruct (Nat.ltb_spec 50 (String.length (String c v))) as [_|]; [|lia].
  split; [reflexivity|].
  rewrite length_app, take_length by lia. reflexivity.
Qed.

Lemma truncate_short (version : string) :
  String.length version <= 50 -> truncate version = version.
Proof.
  intros H. unfold truncate.
  destruct (Nat.ltb_spec 50 (String.length version)) as [|_]; [lia|].
  now rewrite andb_false_r.
Qed.

(** ** Exit status *)

(** The rule of the probing form, where no exception escapes: the run
    ends in [sys.exit] with the number of names not found, which is 0
    exactly when every name was found. *)
Lemma exit_status_counts (env : Env) (first : string) (rest : list string) :
  only_handled env ->
  Py.startswith first "-" = false ->
  exit_status (result (main env (first :: rest)))
  = not_found_count env (first :: rest)
  /\ (exit_status (result (main env (first :: rest))) = 0%Z <->
      forall cmd, In cmd (first :: rest) -> which env cmd = true).
Proof.
  intros Henv H. rewrite (main_counts _ _ _ Henv H). simpl exit_status.
  split; [reflexivity | apply not_found_count_zero].
Qed.

(** [has realtool biggus-fakus], only [realtool] being installed. *)
Example one_of_two_missing :
  main realtool_world ["realtool"; "biggus-fakus"]
  = ([Which "realtool";
      Spawn ["realtool"; "--version"]; Spawn ["realtool"; "-version"];
      Spawn ["realtool"; "-v"]; Spawn ["realtool"; "version"];
      Spawn ["realtool"; "-V"];
      Print (line_without_version realtool_world "realtool");
      Which "biggus-fakus";
      Print (line_not_found realtool_world "biggus-fakus")],
     Exit 1%Z).
Proof. reflexivity. Qed.

Lemma uncaught_in_sweep (env : Env) (cmd : string) (e : exn) :
  String.eqb cmd "node" = false ->
  Py.member cmd shell_builtins = false ->
  run env [cmd; "--version"] = Raises e ->
  handled e = false ->
  get_command_version env cmd = ([Spawn [cmd; "--version"]], Raise e).
Proof.
  intros Hnode Hbuiltin Hrun He.
  unfold get_command_version, node_case, builtin_case.
  rewrite Hnode, Hbuiltin. unfold ret. rewrite !or_next_fall.
  unfold version_flags. cbn [flag_sweep].
  rewrite (try_flag_unhandled _ _ _ _ Hrun He). reflexivity.
Qed.

(** C1. The exit status of a probing run (first token not starting with
    ["-"]) is meant to be the number of names not found.  In the world
    where [tool] is on the path and the host refuses to execute it, the
    [OSError] of the first sweep attempt is not of a handled class: it
    leaves [main] before [sys.exit(fail_count)] is reached, and the
    status is 1 although no name was missing. *)
Theorem exit_status_after_uncaught_error :
  Py.startswith "tool" "-" = false
  /\ not_found_count broken_world ["tool"] = 0%Z
  /\ main broken_world ["tool"]
     = ([Which "tool"; Spawn ["tool"; "--version"]], Raise OSError)
  /\ exit_status (result (main broken_world ["tool"])) = 1%Z.
Proof. repeat split. Qed.

(** ** Names that are not found *)

(** C2. For a name the search path does not resolve, [detect_command]
    returns false after printing the fail mark, the name and
    "command not found"; no process is spawned for it; and the loop of
    [main] goes on with the tally incremented by exactly 1. *)
Theorem not_found_report (env : Env) (cmd : string) (rest : list string)
    (fail_count : Z) :
  which env cmd = false ->
  detect_command env cmd
  = ([Which cmd;
      Print (FAIL env ++ " " ++ cmd ++ reset (COLORS env)
             ++ " command not found")],
     Val false)
  /\ spawns (trace (detect_command env cmd)) = []
  /\ check_each env (cmd :: rest) fail_count
     = ((trace (detect_command env cmd)
         ++ trace (check_each env rest (fail_count + 1)))%list,
        result (check_each env rest (fail_count + 1)))
  /\ check_each env [cmd] fail_count
     = (trace (detect_command env cmd), Val (fail_count + 1)%Z).
Proof.
  intros H. pose proof (detect_command_not_found env cmd H) as Hd.
  repeat split.
  - exact Hd.
  - now rewrite Hd.
  - rewrite (check_each_step _ _ _ _ _ _ Hd), Hd. reflexivity.
  - rewrite (check_each_step _ _ _ _ _ _ Hd), Hd. reflexivity.
Qed.

Lemma not_found_report_witness :
  detect_command empty_world "biggus-fakus"
  = ([Which "biggus-fakus";
      Print (FAIL empty_world ++ " " ++ "biggus-fakus"
             ++ reset (COLORS empty_world) ++ " command not found")],
     Val false)
  /\ check_each empty_world ["biggus-fakus"] 0
     = (trace (detect_command empty_world "biggus-fakus"), Val 1%Z).
Proof.
  destruct (not_found_report empty_world "biggus-fakus" [] 0 eq_refl)
    as (Hd & _ & _ & Hc).
  split; [exact Hd | exact Hc].
Defined.

(** ** The flag sweep *)

(** C3, as the code has it.  The sweep tries [--version], [-version],
    [-v], [version], [-V] in that order, each as the sole argument.  When
    the attempts before [flag] give no result and the attempt with [flag]
    exits with status zero and non-empty output, the sweep returns the
    first line of the whitespace-trimmed output (the output is trimmed as
    a whole, then cut at the first line feed) and spawns nothing after
    that attempt; when every attempt gives no result, all five are tried
    and the sweep returns nothing. *)
Theorem flag_sweep_first_result (env : Env) (cmd : string)
    (before : list string) (flag : string) (after : list string)
    (out : string) :
  version_flags = (before ++ flag :: after)%list ->
  (forall f, In f before -> no_result env [cmd; f]) ->
  run env [cmd; flag] = Completes (mkCompleted 0 out) ->
  out <> "" ->
  version_flags = ["--version"; "-version"; "-v"; "version"; "-V"]
  /\ flag_sweep env cmd version_flags
     = (map (spawn_flag cmd) (before ++ [flag]),
        Val (Some (Py.first_line (Py.strip out))))
  /\ ((forall f, In f version_flags -> no_result env [cmd; f]) ->
      flag_sweep env cmd version_flags
      = (map (spawn_flag cmd) version_flags, Val None)).
Proof.
  intros Hflags Hbefore Hrun Hout. split; [reflexivity|]. split.
  - rewrite Hflags. now apply flag_sweep_first_success.
  - apply flag_sweep_exhausted.
Qed.

Lemma flag_sweep_first_result_witness :
  flag_sweep late_flag_world "tool" version_flags
  = ([Spawn ["tool"; "--version"]; Spawn ["tool"; "-version"];
      Spawn ["tool"; "-v"]],
     Val (Some "tool 3.1")).
Proof.
  refine (proj1 (proj2 (flag_sweep_first_result late_flag_world "tool"
            ["--version"; "-version"] "-v" ["version"; "-V"]
            ("tool 3.1" ++ NL) eq_refl _ eq_refl _))).
  - intros f [<-|[<-|[]]]; unfold no_result; simpl; [left; discriminate | reflexivity].
  - discriminate.
Defined.

(** C3 as stated fails: the output ["1.0 \nbuild 7\n"] of a zero-status
    attempt yields ["1.0 "], with its trailing blank, whereas the first
    line of the output with surrounding whitespace trimmed is ["1.0"]. *)
Lemma first_line_keeps_trailing_blank :
  run trailing_blank_world ["tool"; "--version"]
  = Completes (mkCompleted 0 trailing_blank_output)
  /\ trailing_blank_output <> ""
  /\ flag_sweep trailing_blank_world "tool" version_flags
     = ([Spawn ["tool"; "--version"]], Val (Some "1.0 "))
  /\ Py.strip (Py.first_line trailing_blank_output) = "1.0"
  /\ result (flag_sweep trailing_blank_world "tool" version_flags)
     <> Val (Some (Py.strip (Py.first_line trailing_blank_output))).
Proof. repeat split; discriminate. Qed.

(** ** Errors of the probed tool *)

Lemma handled_classes :
  handled TimeoutExpired = true /\ handled CalledProcessError = true
  /\ handled FileNotFoundError = true /\ handled PermissionError = false
  /\ handled OSError = false /\ handled UnicodeDecodeError = false.
Proof. repeat split. Qed.

(** What the [except] clauses do achieve: exceptions of the handled
    classes, like non-zero exits, never leave [get_command_version], and
    the tool is still reported as found. *)
Lemma handled_errors_absorbed (env : Env) (cmd : string) :
  only_handled env ->
  which env cmd = true ->
  exists l version,
    get_command_version env cmd = (l, Val version)
    /\ detect_command env cmd
       = ((Which cmd :: l ++ [Print (found_line env cmd version)])%list,
          Val true).
Proof.
  intros Henv H.
  destruct (get_command_version_settles env Henv cmd) as [v Hv].
  destruct (get_command_version env cmd) as [l r] eqn:Hg.
  simpl in Hv. subst r. exists l, v.
  split; [reflexivity | now apply detect_command_found].
Qed.

(** C4. Errors of a single attempt are meant to be turned into "no
    result" on the spot.  A spawn error other than [FileNotFoundError]
    is not: when the host refuses to execute [tool], which is on the
    path, the [OSError] of the first attempt leaves
    [get_command_version] and then [detect_command], so that no line is
    printed for [tool] and no found/not-found answer is produced. *)
Theorem spawn_error_escapes :
  which broken_world "tool" = true
  /\ run broken_world ["tool"; "--version"] = Raises OSError
  /\ handled OSError = false
  /\ get_command_version broken_world "tool"
     = ([Spawn ["tool"; "--version"]], Raise OSError)
  /\ detect_command broken_world "tool"
     = ([Which "tool"; Spawn ["tool"; "--version"]], Raise OSError).
Proof. repeat split. Qed.

(** ** Post-processing of the version text *)

(** C5. When [get_command_version] gives a non-empty text for a found
    command, the line printed shows [truncate] of the stripped text: if
    the stripped text has more than 50 characters, its first 47 followed
    by ["..."], 50 characters in all; otherwise the stripped text
    itself. *)
Theorem displayed_version_truncated (env : Env) (cmd : string)
    (l : list event) (version : string) :
  which env cmd = true ->
  get_command_version env cmd = (l, Val (Some version)) ->
  version <> "" ->
  let stripped := strip_name cmd version in
  exists shown,
    detect_command env cmd
    = ((Which cmd :: l ++ [Print (line_with_version env cmd shown)])%list,
       Val true)
    /\ (50 < String.length stripped ->
        shown = Py.take 47 stripped ++ "..."
        /\ String.length (Py.take 47 stripped) = 47
        /\ String.length shown = 50
        /\ exists tail, stripped = Py.take 47 stripped ++ tail)
    /\ (String.length stripped <= 50 -> shown = stripped).
Proof.
  intros H Hv Hne stripped. exists (truncate stripped). repeat split.
  - rewrite (detect_command_found _ _ _ _ H Hv). unfold found_line.
    destruct version; [contradiction | reflexivity].
  - now apply truncate_long.
  - apply take_length. lia.
  - now apply truncate_long.
  - apply take_is_prefix.
  - apply truncate_short.
Qed.

Lemma displayed_version_truncated_witness :
  exists shown,
    detect_command long_world "tool"
    = ([Which "tool"; Spawn ["tool"; "--version"];
        Print (line_with_version long_world "tool" shown)], Val true)
    /\ shown = "version 1.2.3 (build 0123456789abcdef, optimize..."
    /\ String.length shown = 50.
Proof.
  destruct (displayed_version_truncated long_world "tool"
              [Spawn ["tool"; "--version"]]
              "tool version 1.2.3 (build 0123456789abcdef, optimized, with extras)"
              eq_refl eq_refl ltac:(discriminate))
    as (shown & Hd & Hlong & _).
  exists shown. split; [exact Hd|].
  destruct Hlong as (Hs & _ & Hlen & _); [vm_compute; lia|].
  split; [exact Hs | exact Hlen].
Defined.

(** C6. The substitution removes one leading occurrence of the command
    name, compared character for character, then blanks, a closed
    parenthesised annotation if one follows, and blanks again;
    ["curl (x86_64) 7.68.0"] becomes ["7.68.0"] for [curl]; a text that
    does not start with the name is left as it is. *)
Theorem strip_name_leading (cmd version rest : string) :
  strip_name "curl" "curl (x86_64) 7.68.0" = "7.68.0"
  /\ strip_name cmd (cmd ++ rest)
     = Py.lstrip (drop_annotation (Py.lstrip rest))
  /\ (Py.startswith version cmd = false -> strip_name cmd version = version)
  /\ strip_name "curl" "Curl 7.68.0" = "Curl 7.68.0"
  /\ strip_name "curl" "curlcurl 7.68.0" = "curl 7.68.0"
  /\ strip_name "g++" "g++ (GCC) 9.3.0" = "9.3.0"
  /\ strip_name "a.b" "axb 1.0" = "axb 1.0".
Proof.
  repeat split.
  - apply strip_name_app.
  - apply strip_name_other.
Qed.

Lemma strip_name_leading_witness :
  strip_name "curl" "libcurl 7.68.0" = "libcurl 7.68.0".
Proof.
  exact (proj1 (proj2 (proj2 (strip_name_leading "curl" "libcurl 7.68.0" "")))
           eq_refl).
Defined.

(** C7. On a text that does not start with the command name, stripping
    twice gives what stripping once gives. *)
Theorem strip_name_idempotent_off_name (cmd version : string) :
  Py.startswith version cmd = false ->
  strip_name cmd (strip_name cmd version) = strip_name cmd version.
Proof.
  intros H. now rewrite !(strip_name_other _ _ H).
Qed.

Lemma strip_name_idempotent_off_name_witness :
  strip_name "git" (strip_name "git" "version 2.43.0")
  = strip_name "git" "version 2.43.0".
Proof.
  exact (strip_name_idempotent_off_name "git" "version 2.43.0" eq_refl).
Defined.

Lemma append_nil_r (s : string) : s ++ "" = s.
Proof. induction s as [|c s IH]; simpl; congruence. Qed.

Lemma append_assoc (a b c : string) : (a ++ b) ++ c = a ++ b ++ c.
Proof. induction a as [|x a IH]; simpl; congruence. Qed.

Lemma strip_name_itself (cmd : string) : strip_name cmd cmd = "".
Proof.
  rewrite <- (append_nil_r cmd) at 2. now rewrite strip_name_app.
Qed.

(** ** Options *)

(** C8. When the first token is [-v] or [--version], ["has v2.0.0"] is
    printed and the status is 0, whatever follows.  When the first token
    does not start with ["-"], every token goes to the probing loop, and
    the names looked up on the search path are the tokens in order, up
    to the point the run got to: all of them, whether or not they start
    with ["-"], in a run that reaches [sys.exit]. *)
Theorem option_only_first_token (env : Env) (first : string)
    (rest : list string) :
  (first = "-v" \/ first = "--version" ->
   main env (first :: rest) = ([Print "has v2.0.0"], Exit 0%Z)
   /\ exit_status (result (main env (first :: rest))) = 0%Z)
  /\ (Py.startswith first "-" = false ->
      main env (first :: rest)
      = (fail_count <- check_each env (first :: rest) 0%Z ;;
         sys_exit fail_count)
      /\ (exists k,
            lookups (trace (main env (first :: rest)))
            = firstn k (first :: rest))
      /\ forall code,
           result (main env (first :: rest)) = Exit code ->
           lookups (trace (main env (first :: rest))) = first :: rest).
Proof.
  split.
  - now intros [-> | ->].
  - intros H. split; [now apply main_probes|]. split.
    + rewrite (main_probes _ _ _ H).
      destruct (check_each_lookups env (first :: rest) 0) as [k Hk].
      exists k. destruct (check_each env (first :: rest) 0) as [l [v|e|c]];
        [rewrite bind_val; simpl; rewrite app_nil_r | |]; exact Hk.
    + intros code Hcode. now apply (main_exit _ _ _ _ H Hcode).
Qed.

Lemma option_only_first_token_witness :
  main curl_world ["-v"; "curl"; "--help"] = ([Print "has v2.0.0"], Exit 0%Z)
  /\ lookups (trace (main curl_world ["curl"; "-v"; "--help"]))
     = ["curl"; "-v"; "--help"].
Proof.
  split.
  - exact (proj1 (proj1 (option_only_first_token curl_world "-v"
                           ["curl"; "--help"]) (or_introl eq_refl))).
  - exact (proj2 (proj2 (proj2 (option_only_first_token curl_world "curl"
                                  ["-v"; "--help"]) eq_refl)) 2%Z eq_refl).
Defined.

(** ** Special cases of the report *)

(** C9. For [node], a zero status of the evaluation call makes
    [get_command_version] return the trimmed output at once, the empty
    text included: that call is the only process spawned.  When the
    trimmed output is empty, [node] is reported as found with the line
    that carries no version text. *)
Theorem node_zero_status_returns (env : Env) (out : string) :
  run env ["node"; "-e"; "console.log(process.version)"]
  = Completes (mkCompleted 0 out) ->
  get_command_version env "node"
  = ([Spawn ["node"; "-e"; "console.log(process.version)"]],
     Val (Some (Py.strip out)))
  /\ (which env "node" = true ->
      Py.strip out = "" ->
      detect_command env "node"
      = ([Which "node";
          Spawn ["node"; "-e"; "console.log(process.version)"];
          Print (PASS env ++ " " ++ "node" ++ reset (COLORS env))],
         Val true)).
Proof.
  intros Hrun.
  assert (Hg : get_command_version env "node"
               = ([Spawn ["node"; "-e"; "console.log(process.version)"]],
                  Val (Some (Py.strip out)))).
  { unfold get_command_version, node_case. rewrite String.eqb_refl.
    unfold subprocess_run, node_argv. rewrite Hrun.
    cbn [bind try_except returncode stdout Z.eqb ret app].
    now rewrite or_next_return. }
  split; [exact Hg|].
  intros H Hempty.
  rewrite (detect_command_found _ _ _ _ H Hg). unfold found_line.
  rewrite Hempty. reflexivity.
Qed.

Lemma node_zero_status_returns_witness :
  detect_command silent_node_world "node"
  = ([Which "node";
      Spawn ["node"; "-e"; "console.log(process.version)"];
      Print (PASS silent_node_world ++ " " ++ "node"
             ++ reset (COLORS silent_node_world))],
     Val true).
Proof.
  exact (proj2 (node_zero_status_returns silent_node_world NL eq_refl)
           eq_refl eq_refl).
Defined.

(** C10. The choice of the line format looks at the text
    [get_command_version] returned, before the name is stripped from it.
    So a non-empty text that stripping reduces to nothing, such as the
    name alone, is printed in the with-version format with an empty
    version: the line of the without-version format followed by a blank
    and the reset decoration, which is empty when the output is not a
    terminal, so that the line then ends in the blank. *)
Theorem empty_version_after_strip (env : Env) (cmd : string)
    (l : list event) (version : string) :
  which env cmd = true ->
  get_command_version env cmd = (l, Val (Some version)) ->
  version <> "" ->
  strip_name cmd version = "" ->
  detect_command env cmd
  = ((Which cmd :: l ++ [Print (line_with_version env cmd "")])%list, Val true)
  /\ line_with_version env cmd ""
     = line_without_version env cmd ++ " " ++ reset (COLORS env)
  /\ (isatty env = false ->
      line_with_version env cmd "" = CHECKMARK ++ " " ++ cmd ++ " ")
  /\ strip_name cmd cmd = "".
Proof.
  intros H Hv Hne Hs. repeat split.
  - rewrite (detect_command_found _ _ _ _ H Hv). unfold found_line.
    destruct version; [contradiction|]. now rewrite Hs.
  - unfold line_with_version, line_without_version.
    now rewrite !append_assoc.
  - intros Htty. unfold line_with_version, PASS, COLORS, setup_colors.
    rewrite Htty. reflexivity.
  - apply strip_name_itself.
Qed.

Lemma empty_version_after_strip_witness :
  detect_command bare_name_world "git"
  = ([Which "git"; Spawn ["git"; "--version"];
      Print (CHECKMARK ++ " git ")], Val true).
Proof.
  destruct (empty_version_after_strip bare_name_world "git"
              [Spawn ["git"; "--version"]] "git"
              eq_refl eq_refl ltac:(discriminate) eq_refl)
    as (Hd & _ & Hline & _).
  rewrite Hd, (Hline eq_refl). reflexivity.
Defined.

(** ** Further properties of the program *)

(** *** Traces and blocks *)

Lemma prints_app (l l' : list event) :
  prints (l ++ l') = (prints l ++ prints l')%list.
Proof.
  induction l as [|[c|a|t] l IH]; simpl; congruence.
Qed.

Lemma world_only_handled (path : list string)
    (table : list (list string * outcome)) :
  table_handled table = true -> only_handled (world path table).
Proof.
  unfold only_handled, world. simpl. intros Ht argv e.
  induction table as [|[a o] table IH]; simpl in *; [discriminate|].
  destruct (argv_eqb a argv).
  - intros ->. now apply andb_prop in Ht.
  - apply IH. destruct o; [exact Ht | now apply andb_prop in Ht].
Qed.


(** How [or_next] ends, by the way its first block ends. *)
Lemma or_next_cases {A} (block next : M (option A)) :
  (result block <> Val None /\ or_next block next = block)
  \/ (result block = Val None
      /\ or_next block next
         = ((trace block ++ trace next)%list, result next)).
Proof.
  destruct block as [l [[v|]|e|c]].
  - left. rewrite or_next_return. split; [discriminate | reflexivity].
  - right. rewrite or_next_fall. split; reflexivity.
  - left. split; [discriminate | reflexivity].
  - left. split; [discriminate | reflexivity].
Qed.












(** *** What is spawned *)

Lemma node_case_trace (env : Env) (cmd : string) :
  trace (node_case env cmd)
  = if String.eqb cmd "node" then [Spawn (node_argv cmd)] else [].
Proof.
  unfold node_case. destruct (String.eqb cmd "node"); [|reflexivity].
  apply (attempt_shape env (node_argv cmd)
           (fun result => if (returncode result =? 0)%Z
                          then ret (Some (Py.strip (stdout result)))
                          else ret None)).
  intros r. destruct (_ =? _)%Z; eauto.
Qed.

Lemma builtin_case_trace (env : Env) (cmd : string) :
  trace (builtin_case env cmd)
  = if Py.member cmd shell_builtins then [Spawn (builtin_argv cmd)] else [].
Proof.
  unfold builtin_case. destruct (Py.member cmd shell_builtins); [|reflexivity].
  apply (attempt_shape env (builtin_argv cmd)
           (fun result => if (returncode result =? 0)%Z
                             && Py.contains "shell builtin" (stdout result)
                          then ret (Some "shell builtin")
                          else ret None)).
  intros r. destruct (_ && _); eauto.
Qed.

Lemma flag_sweep_trace (env : Env) (cmd : string) (flags : list string) :
  exists k, trace (flag_sweep env cmd flags)
            = map (spawn_flag cmd) (firstn k flags).
Proof.
  induction flags as [|flag flags [k IH]]; simpl.
  - now exists 0%nat.
  - destruct (or_next_cases (try_flag env cmd flag) (flag_sweep env cmd flags))
      as [[_ ->] | [_ ->]]; rewrite try_flag_trace.
    + now exists 1%nat.
    + exists (S k). cbn [trace fst]. fold (trace (flag_sweep env cmd flags)).
      now rewrite IH.
Qed.

Lemma or_next_trace {A} (block next : M (option A)) :
  trace (or_next block next) = trace block
  \/ trace (or_next block next) = (trace block ++ trace next)%list.
Proof.
  destruct (or_next_cases block next) as [[_ ->] | [_ ->]];
    [now left | now right].
Qed.

Lemma get_command_version_trace (env : Env) (cmd : string) :
  exists head k,
    trace (get_command_version env cmd)
    = (head ++ map (spawn_flag cmd) (firstn k version_flags))%list
    /\ (head = []
        \/ (cmd = "node" /\ head = [Spawn (node_argv cmd)])
        \/ (Py.member cmd shell_builtins = true
            /\ head = [Spawn (builtin_argv cmd)])).
Proof.
  unfold get_command_version.
  pose proof (node_case_trace env cmd) as Hn.
  pose proof (builtin_case_trace env cmd) as Hb.
  destruct (flag_sweep_trace env cmd version_flags) as [k Hk].
  set (sweep := flag_sweep env cmd version_flags) in *.
  set (inner := or_next (builtin_case env cmd) sweep).
  assert (Hinner : exists head k',
    trace inner = (head ++ map (spawn_flag cmd) (firstn k' version_flags))%list
    /\ (head = [] \/ (Py.member cmd shell_builtins = true
                      /\ head = [Spawn (builtin_argv cmd)]))).
  { destruct (or_next_trace (builtin_case env cmd) sweep) as [E|E];
      fold inner in E; rewrite E, Hb;
      destruct (Py.member cmd shell_builtins) eqn:Hm.
    - exists [Spawn (builtin_argv cmd)], 0%nat. split; [reflexivity | now right].
    - exists [], 0%nat. split; [reflexivity | now left].
    - exists [Spawn (builtin_argv cmd)], k. rewrite Hk. split; [reflexivity | now right].
    - exists [], k. rewrite Hk. split; [reflexivity | now left]. }
  destruct Hinner as (head & k' & Hi & Hhead).
  destruct (String.eqb_spec cmd "node") as [Hc|Hc].
  - destruct (or_next_trace (node_case env cmd) inner) as [E|E]; rewrite E, Hn.
    + exists [Spawn (node_argv cmd)], 0%nat. split; [reflexivity|]. right. now left.
    + rewrite Hi. destruct Hhead as [-> | [Hm _]].
      * exists [Spawn (node_argv cmd)], k'. split; [reflexivity|]. right. now left.
      * subst cmd. discriminate.
  - destruct (or_next_trace (node_case env cmd) inner) as [E|E]; rewrite E, Hn.
    + exists [], 0%nat. split; [reflexivity | now left].
    + rewrite Hi. exists head, k'. split; [reflexivity|].
      destruct Hhead as [-> | H]; [now left | right; now right].
Qed.

Lemma spawns_sweep (cmd : string) (flags : list string) :
  spawns (map (spawn_flag cmd) flags) = map (fun flag => [cmd; flag]) flags
  /\ lookups (map (spawn_flag cmd) flags) = []
  /\ prints (map (spawn_flag cmd) flags) = [].
Proof.
  induction flags as [|f flags (IHs & IHl & IHp)]; simpl; [now repeat split|].
  now rewrite IHs, IHl, IHp.
Qed.

Lemma get_command_version_spawns (env : Env) (cmd : string) :
  exists head k,
    spawns (trace (get_command_version env cmd))
    = (head ++ map (fun flag => [cmd; flag]) (firstn k version_flags))%list
    /\ prints (trace (get_command_version env cmd)) = []
    /\ (head = []
        \/ (cmd = "node" /\ head = [node_argv cmd])
        \/ (Py.member cmd shell_builtins = true /\ head = [builtin_argv cmd])).
Proof.
  destruct (get_command_version_trace env cmd) as (head & k & -> & Hhead).
  destruct (spawns_sweep cmd (firstn k version_flags)) as (Hs & _ & Hp).
  rewrite spawns_app, prints_app, Hs, Hp.
  destruct Hhead as [-> | [[Hc ->] | [Hm ->]]].
  - exists [], k. repeat split. now left.
  - exists [node_argv cmd], k. repeat split. right; now left.
  - exists [builtin_argv cmd], k. repeat split. right; now right.
Qed.

Lemma detect_command_trace (env : Env) (cmd : string) :
  which env cmd = true ->
  exists tail,
    trace (detect_command env cmd)
    = (Which cmd :: trace (get_command_version env cmd) ++ tail)%list
    /\ spawns tail = []
    /\ (forall found, result (detect_command env cmd) = Val found ->
        tail = [Print (found_line env cmd (version_of env cmd))])
    /\ (forall e, result (detect_command env cmd) = Raise e ->
        result (get_command_version env cmd) = Raise e /\ tail = []).
Proof.
  intros H. unfold version_of.
  destruct (get_command_version_shape env cmd) as [_ Hr].
  destruct (get_command_version env cmd) as [l [v|e|code]] eqn:Hv.
  - rewrite (detect_command_found _ _ _ _ H Hv).
    exists [Print (found_line env cmd v)].
    split; [reflexivity|]. split; [reflexivity|].
    split; [reflexivity | discriminate].
  - rewrite (detect_command_raise _ _ _ _ H Hv).
    exists []. simpl. rewrite app_nil_r.
    split; [reflexivity|]. split; [reflexivity|].
    split; [discriminate|]. intros e' [= <-]. split; reflexivity.
  - now destruct (Hr code).
Qed.

Lemma detect_command_spawns (env : Env) (cmd : string) :
  spawns (trace (detect_command env cmd))
  = if which env cmd then spawns (trace (get_command_version env cmd)) else [].
Proof.
  destruct (which env cmd) eqn:H.
  - destruct (detect_command_trace env cmd H) as (tail & -> & Ht & _).
    simpl. now rewrite spawns_app, Ht, app_nil_r.
  - now rewrite (detect_command_not_found _ _ H).
Qed.

Lemma detect_command_prints (env : Env) (cmd : string) (found : bool) :
  result (detect_command env cmd) = Val found ->
  prints (trace (detect_command env cmd)) = [report_line env cmd].
Proof.
  unfold report_line. destruct (which env cmd) eqn:H.
  - intros Hf.
    destruct (detect_command_trace env cmd H) as (tail & -> & _ & Ht & _).
    rewrite (Ht _ Hf).
    destruct (get_command_version_spawns env cmd) as (_ & _ & _ & Hp & _).
    simpl. now rewrite prints_app, Hp.
  - now rewrite (detect_command_not_found _ _ H).
Qed.


(** The trace of the loop is the traces of [detect_command] for the
    names it got to, one after the other. *)
Lemma check_each_trace (env : Env) (cmds : list string) (fail_count : Z) :
  exists k,
    trace (check_each env cmds fail_count)
    = flat_map (fun cmd => trace (detect_command env cmd)) (firstn k cmds)
    /\ (forall total, result (check_each env cmds fail_count) = Val total ->
        firstn k cmds = cmds).
Proof.
  revert fail_count. induction cmds as [|cmd rest IH]; intros n.
  - exists 0%nat. split; reflexivity.
  - destruct (detect_command env cmd) as [l [found|e|c]] eqn:Hd.
    + rewrite (check_each_step _ _ _ _ _ _ Hd). cbv zeta.
      destruct (IH (if negb found then n + 1 else n)%Z) as (k & Hk & Hfull).
      exists (S k). cbn [firstn flat_map]. rewrite Hd, <- Hk.
      split; [reflexivity|]. intros total Ht.
      cbn [result snd] in Ht. now rewrite (Hfull total Ht).
    + exists 1%nat. cbn [firstn flat_map check_each]. rewrite Hd, app_nil_r.
      split; [reflexivity | discriminate].
    + exists 1%nat. cbn [firstn flat_map check_each]. rewrite Hd, app_nil_r.
      split; [reflexivity | discriminate].
Qed.


Lemma main_trace_probing (env : Env) (first : string) (rest : list string) :
  Py.startswith first "-" = false ->
  trace (main env (first :: rest)) = trace (check_each env (first :: rest) 0)
  /\ (forall code, result (main env (first :: rest)) = Exit code ->
      result (check_each env (first :: rest) 0) = Val code)
  /\ (forall e, result (main env (first :: rest)) = Raise e ->
      result (check_each env (first :: rest) 0) = Raise e)
  /\ (forall v, result (main env (first :: rest)) <> Val v).
Proof.
  intros H. rewrite (main_probes _ _ _ H).
  pose proof (check_each_no_exit env (first :: rest) 0) as Hne.
  destruct (check_each env (first :: rest) 0) as [l [total|e|c]].
  - rewrite bind_val. simpl. rewrite app_nil_r.
    split; [reflexivity|]. split; [now intros code [= ->]|].
    split; discriminate.
  - split; [reflexivity|]. split; [discriminate|].
    split; [now intros e' [= ->] | discriminate].
  - now destruct (Hne c).
Qed.

(** *** Runs of [main] *)


Lemma mixed_world_handled : only_handled mixed_world.
Proof. now apply world_only_handled. Qed.




(** X3. In a probing run that reaches [sys.exit], exactly one line is
    printed per name, in the order of the command line: the report line
    of that name. *)
Theorem report_lines_in_order (env : Env) (first : string)
    (rest : list string) (code : Z) :
  Py.startswith first "-" = false ->
  result (main env (first :: rest)) = Exit code ->
  prints (trace (main env (first :: rest)))
  = map (report_line env) (first :: rest).
Proof.
  intros H Hr.
  destruct (main_trace_probing env first rest H) as (-> & Hexit & _ & _).
  specialize (Hexit code Hr). clear Hr H.
  generalize dependent code. generalize 0%Z as n.
  generalize (first :: rest) as cmds. clear first rest.
  induction cmds as [|cmd cmds IH]; intros n code Hc; [reflexivity|].
  destruct (detect_command env cmd) as [l [found|e|c]] eqn:Hd.
  - rewrite (check_each_step _ _ _ _ _ _ Hd) in *. cbv zeta in *.
    cbn [trace fst result snd] in *. rewrite prints_app.
    pose proof (detect_command_prints env cmd found) as Hp.
    rewrite Hd in Hp. cbn [trace fst result snd] in Hp. rewrite (Hp eq_refl).
    cbn [map app]. f_equal. exact (IH _ _ Hc).
  - simpl in Hc. rewrite Hd in Hc. discriminate.
  - simpl in Hc. rewrite Hd in Hc. discriminate.
Qed.

Lemma report_lines_in_order_witness :
  prints (trace (main mixed_world ["nope"; "curl"; "quiet"]))
  = [FANCYX ++ " nope command not found";
     CHECKMARK ++ " curl 7.68.0";
     CHECKMARK ++ " quiet"].
Proof.
  exact (report_lines_in_order mixed_world "nope" ["curl"; "quiet"] 1%Z
           eq_refl eq_refl).
Defined.

(** X4. When the first token starts with ["-"], nothing is looked up and
    nothing is spawned, whatever follows it.  [-h] and [--help] print
    the help text and leave with status 0; a token that is none of
    [-v], [--version], [-h], [--help] prints ["Unknown option: "] and the
    token, then the help text, and leaves with status 1.  Without any
    token the help text is printed and the status is 1. *)
Theorem option_token_never_probes (env : Env) (first : string)
    (rest : list string) :
  Py.startswith first "-" = true ->
  lookups (trace (main env (first :: rest))) = []
  /\ spawns (trace (main env (first :: rest))) = []
  /\ (first = "-h" \/ first = "--help" ->
      main env (first :: rest) = ([Print (help_text env)], Exit 0%Z))
  /\ (Py.member first ["-v"; "--version"; "-h"; "--help"] = false ->
      main env (first :: rest)
      = ([Print ("Unknown option: " ++ first); Print (help_text env)],
         Exit 1%Z))
  /\ main env [] = ([Print (help_text env)], Exit 1%Z).
Proof.
  intros H. unfold main. rewrite H.
  assert (Hm : Py.member first ["-v"; "--version"; "-h"; "--help"]
               = Py.member first ["-v"; "--version"]
                 || Py.member first ["-h"; "--help"]).
  { unfold Py.member. simpl. now rewrite !orb_false_r, orb_assoc. }
  rewrite Hm.
  destruct (Py.member first ["-v"; "--version"]) eqn:Hv;
    destruct (Py.member first ["-h"; "--help"]) eqn:Hh;
    (split; [reflexivity|]); (split; [reflexivity|]);
    (split; [|split; [try discriminate; reflexivity | reflexivity]]);
    intros [-> | ->]; try reflexivity; discriminate.
Qed.

Lemma option_token_never_probes_witness :
  main curl_world ["-x"; "curl"]
  = ([Print "Unknown option: -x"; Print (help_text curl_world)], Exit 1%Z).
Proof.
  exact (proj1 (proj2 (proj2 (proj2
           (option_token_never_probes curl_world "-x" ["curl"] eq_refl))))
           eq_refl).
Defined.

(** *** Processes spawned *)

Lemma get_command_version_probe_argv (env : Env) (cmd : string)
    (argv : list string) :
  In argv (spawns (trace (get_command_version env cmd))) ->
  probe_argv cmd argv.
Proof.
  destruct (get_command_version_spawns env cmd) as (head & k & -> & _ & Hhead).
  intros Hin. apply in_app_or in Hin. destruct Hin as [Hin|Hin].
  - destruct Hhead as [-> | [[Hc ->] | [Hm ->]]].
    + destruct Hin.
    + destruct Hin as [<-|[]]. right; left. split; [exact Hc | reflexivity].
    + destruct Hin as [<-|[]]. right; right. split; [exact Hm | reflexivity].
  - apply in_map_iff in Hin. destruct Hin as (flag & <- & Hf).
    left. exists flag. split; [|reflexivity].
    revert Hf. generalize version_flags. induction k as [|k IH]; intros [|f fl] Hf;
      simpl in Hf; try contradiction.
    destruct Hf as [->|Hf]; [now left | right; now apply IH].
Qed.

Lemma check_each_spawns (env : Env) (cmds : list string) (fail_count : Z) :
  exists k,
    spawns (trace (check_each env cmds fail_count))
    = flat_map (fun cmd => spawns (trace (detect_command env cmd)))
        (firstn k cmds).
Proof.
  destruct (check_each_trace env cmds fail_count) as (k & -> & _).
  exists k. induction (firstn k cmds) as [|cmd l IH]; [reflexivity|].
  simpl. now rewrite spawns_app, IH.
Qed.

Lemma in_firstn {A} (k : nat) (l : list A) (x : A) :
  In x (firstn k l) -> In x l.
Proof.
  revert l; induction k as [|k IH]; intros [|a l] H; simpl in H;
    try contradiction.
  destruct H as [->|H]; [now left | right; now apply IH].
Qed.

Lemma option_spawns_nothing (env : Env) (first : string) (rest : list string) :
  Py.startswith first "-" = true ->
  spawns (trace (main env (first :: rest))) = [].
Proof.
  intros H. unfold main. rewrite H.
  destruct (Py.member first ["-v"; "--version"]); [reflexivity|].
  now destruct (Py.member first ["-h"; "--help"]).
Qed.

Lemma main_spawns (env : Env) (args : list string) :
  exists k,
    spawns (trace (main env args))
    = flat_map (fun cmd => spawns (trace (detect_command env cmd)))
        (firstn k args).
Proof.
  destruct args as [|first rest]; [now exists 0%nat|].
  destruct (Py.startswith first "-") eqn:H.
  - exists 0%nat. now apply option_spawns_nothing.
  - destruct (main_trace_probing env first rest H) as (-> & _).
    apply check_each_spawns.
Qed.

(** X5. Whatever the command line, the only processes a run spawns are
    probes of names that the search path resolved: the name itself with
    one of the five version flags, [node -e console.log(process.version)]
    for the name [node], and [bash -c "type NAME"] for a name of the
    fixed builtin list.  So a name from the command line becomes part
    of a [bash -c] command only when it is one of the listed names. *)
Theorem spawns_are_probes (env : Env) (args : list string)
    (argv : list string) :
  In argv (spawns (trace (main env args))) ->
  exists cmd,
    In cmd args /\ which env cmd = true /\ probe_argv cmd argv.
Proof.
  destruct (main_spawns env args) as [k ->]. intros Hin.
  apply in_flat_map in Hin. destruct Hin as (cmd & Hcmd & Hin).
  exists cmd. split; [now apply (in_firstn k)|].
  rewrite detect_command_spawns in Hin.
  destruct (which env cmd); [|destruct Hin].
  split; [reflexivity | now apply (get_command_version_probe_argv env)].
Qed.

Lemma spawns_are_probes_witness :
  exists cmd,
    In cmd ["nope"; "cd"] /\ which mixed_world cmd = true
    /\ probe_argv cmd ["bash"; "-c"; "type cd"].
Proof.
  apply (spawns_are_probes mixed_world ["nope"; "cd"] ["bash"; "-c"; "type cd"]).
  now left.
Defined.

Lemma firstn_length_le {A} (k : nat) (l : list A) :
  List.length (firstn k l) <= List.length l.
Proof. rewrite List.length_firstn. lia. Qed.

(** X6. [get_command_version] spawns at most six processes for a name,
    at most five for a name that is neither [node] nor a listed builtin,
    and a run of [main] at most six per name given. *)
Theorem spawn_count_bounded (env : Env) (cmd : string) (args : list string) :
  List.length (spawns (trace (get_command_version env cmd))) <= 6
  /\ (cmd <> "node" -> Py.member cmd shell_builtins = false ->
      List.length (spawns (trace (get_command_version env cmd))) <= 5)
  /\ List.length (spawns (trace (main env args))) <= 6 * List.length args.
Proof.
  assert (Hone : forall c,
    List.length (spawns (trace (get_command_version env c))) <= 6
    /\ (c <> "node" -> Py.member c shell_builtins = false ->
        List.length (spawns (trace (get_command_version env c))) <= 5)).
  { intros c.
    destruct (get_command_version_spawns env c) as (head & k & -> & _ & Hhead).
    rewrite List.length_app, List.length_map.
    pose proof (firstn_length_le k version_flags) as Hk.
    change (List.length version_flags) with 5 in Hk.
    destruct Hhead as [-> | [[Hc ->] | [Hm ->]]]; cbn [List.length];
      (split; [lia|]); intros Hne Hf.
    - lia.
    - contradiction.
    - congruence. }
  split; [apply Hone|]. split; [apply Hone|].
  destruct (main_spawns env args) as [k ->].
  pose proof (firstn_length_le k args) as Hk.
  assert (Hsum : forall l,
    List.length (flat_map (fun c => spawns (trace (detect_command env c))) l)
    <= 6 * List.length l).
  { induction l as [|c l IH]; simpl; [lia|].
    rewrite List.length_app, detect_command_spawns.
    destruct (which env c); [destruct (Hone c) as [H6 _] | simpl]; lia. }
  specialize (Hsum (firstn k args)). lia.
Qed.

Lemma spawn_count_bounded_witness :
  List.length (spawns (trace (get_command_version mixed_world "quiet"))) <= 5.
Proof.
  apply (spawn_count_bounded mixed_world "quiet" []);
    [discriminate | reflexivity].
Defined.

(** *** Commands that are found *)

Lemma get_command_version_ordinary (env : Env) (cmd : string) :
  cmd <> "node" ->
  Py.member cmd shell_builtins = false ->
  get_command_version env cmd = flag_sweep env cmd version_flags.
Proof.
  intros Hn Hb. unfold get_command_version, node_case, builtin_case.
  destruct (String.eqb_spec cmd "node") as [|_]; [contradiction|].
  rewrite Hb. unfold ret. rewrite !or_next_fall.
  now destruct (flag_sweep env cmd version_flags).
Qed.

Lemma check_each_found (env : Env) (cmd : string) (rest : list string)
    (fail_count : Z) (l : list event) :
  detect_command env cmd = (l, Val true) ->
  check_each env (cmd :: rest) fail_count
  = ((l ++ trace (check_each env rest fail_count))%list,
     result (check_each env rest fail_count)).
Proof. intros Hd. now rewrite (check_each_step _ _ _ _ _ _ Hd). Qed.

(** X7. A name that is on the path, is neither [node] nor a listed
    builtin, and for which all five flags give no result (non-zero exit,
    empty output, timeout, file not found) is reported as found: the five
    attempts are made in order, the line without version text is
    printed, and the loop goes on with the tally unchanged. *)
Theorem found_without_version (env : Env) (cmd : string) (rest : list string)
    (fail_count : Z) :
  which env cmd = true ->
  cmd <> "node" ->
  Py.member cmd shell_builtins = false ->
  (forall flag, In flag version_flags -> no_result env [cmd; flag]) ->
  detect_command env cmd
  = ((Which cmd :: map (spawn_flag cmd) version_flags
      ++ [Print (PASS env ++ " " ++ cmd ++ reset (COLORS env))])%list,
     Val true)
  /\ check_each env (cmd :: rest) fail_count
     = ((trace (detect_command env cmd)
         ++ trace (check_each env rest fail_count))%list,
        result (check_each env rest fail_count)).
Proof.
  intros H Hn Hb Hall.
  assert (Hd : detect_command env cmd
    = ((Which cmd :: map (spawn_flag cmd) version_flags
        ++ [Print (PASS env ++ " " ++ cmd ++ reset (COLORS env))])%list,
       Val true)).
  { apply (detect_command_found env cmd _ None H).
    rewrite (get_command_version_ordinary env cmd Hn Hb).
    now apply flag_sweep_exhausted. }
  split; [exact Hd|]. rewrite (check_each_found _ _ _ _ _ Hd), Hd. reflexivity.
Qed.

Lemma found_without_version_witness :
  detect_command mixed_world "quiet"
  = ([Which "quiet";
      Spawn ["quiet"; "--version"]; Spawn ["quiet"; "-version"];
      Spawn ["quiet"; "-v"]; Spawn ["quiet"; "version"];
      Spawn ["quiet"; "-V"];
      Print (CHECKMARK ++ " quiet")], Val true).
Proof.
  refine (proj1 (found_without_version mixed_world "quiet" [] 0
                   eq_refl _ eq_refl _)).
  - discriminate.
  - intros flag [<-|[<-|[<-|[<-|[<-|[]]]]]]; left; discriminate.
Defined.

(** X8. In a world where [subprocess.run] raises only exceptions of the
    handled classes, a name on the path is always reported as found,
    with one printed line, whatever its version attempts do; it never
    adds to the tally. *)
Theorem found_never_counts (env : Env) (cmd : string) (rest : list string)
    (fail_count : Z) :
  only_handled env ->
  which env cmd = true ->
  result (detect_command env cmd) = Val true
  /\ prints (trace (detect_command env cmd))
     = [found_line env cmd (version_of env cmd)]
  /\ result (check_each env (cmd :: rest) fail_count)
     = result (check_each env rest fail_count)
  /\ not_found_count env (cmd :: rest) = not_found_count env rest.
Proof.
  intros Henv H.
  destruct (handled_errors_absorbed env cmd Henv H) as (l & v & Hg & Hd).
  pose proof (detect_command_prints env cmd true) as Hp.
  unfold report_line in Hp. rewrite H, Hd in Hp.
  rewrite (check_each_found _ _ _ _ _ Hd), Hd.
  split; [reflexivity|]. split; [now apply Hp|]. split; [reflexivity|].
  rewrite not_found_count_cons, H. lia.
Qed.

Lemma found_never_counts_witness :
  result (detect_command mixed_world "node") = Val true
  /\ prints (trace (detect_command mixed_world "node"))
     = [CHECKMARK ++ " node v18.19.0"].
Proof.
  destruct (found_never_counts mixed_world "node" [] 0
              mixed_world_handled eq_refl) as (Hr & Hp & _).
  split; [exact Hr | exact Hp].
Defined.

(** *** The text that is displayed *)

Lemma lstrip_suffix (s : string) : exists p, s = p ++ Py.lstrip s.
Proof.
  induction s as [|c s [p IH]]; [now exists ""|]. simpl.
  destruct (Py.isspace c); [|now exists ""].
  exists (String c p). simpl. now rewrite <- IH.
Qed.

Lemma after_close_suffix (s t : string) :
  after_close s = Some t -> exists p, s = p ++ t.
Proof.
  induction s as [|c s IH]; [discriminate|]. simpl.
  destruct (Ascii.eqb c ")").
  - intros [= ->]. now exists (String c "").
  - intros H. destruct (IH H) as [p ->]. now exists (String c p).
Qed.

Lemma drop_annotation_suffix (s : string) :
  exists p, s = p ++ drop_annotation s.
Proof.
  unfold drop_annotation. destruct s as [|c s]; [now exists ""|].
  destruct (Ascii.eqb c "("); [|now exists ""].
  destruct (after_close s) as [t|] eqn:Ht; [|now exists ""].
  destruct (after_close_suffix s t Ht) as [p ->]. now exists (String c p).
Qed.

Lemma after_name_suffix (rest : string) :
  exists p, rest = p ++ after_name rest.
Proof.
  unfold after_name.
  destruct (lstrip_suffix rest) as [p1 H1].
  destruct (drop_annotation_suffix (Py.lstrip rest)) as [p2 H2].
  destruct (lstrip_suffix (drop_annotation (Py.lstrip rest))) as [p3 H3].
  exists (p1 ++ p2 ++ p3). rewrite !append_assoc.
  now rewrite <- H3, <- H2, <- H1.
Qed.

Lemma strip_name_suffix (cmd version : string) :
  exists removed,
    version = removed ++ strip_name cmd version
    /\ (removed = "" \/ exists blanks, removed = cmd ++ blanks).
Proof.
  rewrite strip_name_eq.
  destruct (drop_prefix cmd version) as [rest|] eqn:Hd.
  - apply drop_prefix_some in Hd.
    destruct (after_name_suffix rest) as [p Hp].
    exists (cmd ++ p). split; [|right; now exists p].
    now rewrite append_assoc, <- Hp.
  - exists "". split; [reflexivity | now left].
Qed.

(** X9. The substitution only ever removes text from the front: the
    version text is what was removed followed by what is kept, the part
    removed being empty or beginning with the command name; the result
    is never longer than the input. *)
Theorem strip_name_keeps_suffix (cmd version : string) :
  exists removed,
    version = removed ++ strip_name cmd version
    /\ (removed = "" \/ exists blanks, removed = cmd ++ blanks)
    /\ String.length (strip_name cmd version) <= String.length version.
Proof.
  destruct (strip_name_suffix cmd version) as (removed & Hv & Hr).
  exists removed.
  split; [exact Hv|]. split; [exact Hr|].
  rewrite Hv at 2. rewrite length_app. lia.
Qed.

Lemma or_next_value {A} (block next : M (option A)) (v : A) :
  result (or_next block next) = Val (Some v) ->
  result block = Val (Some v) \/ result next = Val (Some v).
Proof.
  destruct (or_next_cases block next) as [[_ ->] | [_ ->]];
    [now left | now right].
Qed.

Lemma node_case_value (env : Env) (cmd v : string) :
  result (node_case env cmd) = Val (Some v) ->
  cmd = "node" /\ exists out, v = Py.strip out.
Proof.
  unfold node_case. destruct (String.eqb_spec cmd "node") as [->|]; [|discriminate].
  unfold subprocess_run, try_except, bind.
  destruct (run env (node_argv "node")) as [[rc out]|e]; simpl.
  - destruct (rc =? 0)%Z; [|discriminate].
    intros [= <-]. split; [reflexivity | now exists out].
  - destruct (handled e); discriminate.
Qed.

Lemma builtin_case_value (env : Env) (cmd v : string) :
  result (builtin_case env cmd) = Val (Some v) -> v = "shell builtin".
Proof.
  unfold builtin_case. destruct (Py.member cmd shell_builtins); [|discriminate].
  unfold subprocess_run, try_except, bind.
  destruct (run env (builtin_argv cmd)) as [[rc out]|e]; simpl.
  - destruct (_ && _); [|discriminate]. now intros [= <-].
  - destruct (handled e); discriminate.
Qed.

Lemma try_flag_value (env : Env) (cmd flag v : string) :
  result (try_flag env cmd flag) = Val (Some v) ->
  exists out, v = Py.first_line (Py.strip out).
Proof.
  unfold try_flag, subprocess_run, try_except, bind.
  destruct (run env [cmd; flag]) as [[rc out]|e]; simpl.
  - destruct (_ && _); [|discriminate]. intros [= <-]. now exists out.
  - destruct (handled e); discriminate.
Qed.

Lemma flag_sweep_value (env : Env) (cmd : string) (flags : list string)
    (v : string) :
  result (flag_sweep env cmd flags) = Val (Some v) ->
  exists out, v = Py.first_line (Py.strip out).
Proof.
  induction flags as [|flag flags IH]; simpl; [discriminate|].
  intros H. apply or_next_value in H. destruct H as [H|H].
  - now apply try_flag_value in H.
  - now apply IH.
Qed.

(** Where a version text can come from. *)
Lemma get_command_version_value (env : Env) (cmd v : string) :
  result (get_command_version env cmd) = Val (Some v) ->
  (cmd = "node" /\ exists out, v = Py.strip out)
  \/ v = "shell builtin"
  \/ exists out, v = Py.first_line (Py.strip out).
Proof.
  unfold get_command_version. intros H.
  apply or_next_value in H. destruct H as [H|H].
  - left. now apply node_case_value in H.
  - apply or_next_value in H. destruct H as [H|H].
    + right; left. now apply builtin_case_value in H.
    + right; right. now apply flag_sweep_value in H.
Qed.

Lemma lstrip_no_leading_space (s : string) : no_leading_space (Py.lstrip s).
Proof.
  induction s as [|c s IH]; simpl; [exact I|].
  destruct (Py.isspace c) eqn:Hc; [exact IH | exact Hc].
Qed.

Lemma rstrip_no_leading_space (s : string) :
  no_leading_space s -> no_leading_space (Py.rstrip s).
Proof.
  destruct s as [|c s]; simpl; [trivial|]. intros Hc.
  destruct (Py.rstrip s); [rewrite Hc|]; exact Hc.
Qed.

Lemma strip_no_leading_space (s : string) : no_leading_space (Py.strip s).
Proof. apply rstrip_no_leading_space, lstrip_no_leading_space. Qed.

Lemma first_line_no_leading_space (s : string) :
  no_leading_space s -> no_leading_space (Py.first_line s).
Proof.
  destruct s as [|c s]; simpl; [trivial|]. intros Hc.
  destruct (Ascii.eqb c Py.LF); [exact I | exact Hc].
Qed.

Lemma truncate_no_leading_space (s : string) :
  no_leading_space s -> no_leading_space (truncate s).
Proof.
  unfold truncate. destruct (_ && _); [|trivial].
  destruct s as [|c s]; simpl; trivial.
Qed.

Lemma strip_name_no_leading_space (cmd version : string) :
  no_leading_space version -> no_leading_space (strip_name cmd version).
Proof.
  intros H. rewrite strip_name_eq.
  destruct (drop_prefix cmd version); [apply lstrip_no_leading_space | exact H].
Qed.

(** X10. Whatever a probed tool prints, the version text
    [get_command_version] returns does not begin with white space, and
    neither does the text displayed after stripping and truncation. *)
Theorem version_has_no_leading_space (env : Env) (cmd version : string) :
  result (get_command_version env cmd) = Val (Some version) ->
  no_leading_space version
  /\ no_leading_space (truncate (strip_name cmd version)).
Proof.
  intros H.
  assert (Hv : no_leading_space version).
  { destruct (get_command_version_value env cmd version H)
      as [[_ [out ->]] | [-> | [out ->]]].
    - apply strip_no_leading_space.
    - reflexivity.
    - apply first_line_no_leading_space, strip_no_leading_space. }
  split; [exact Hv|].
  now apply truncate_no_leading_space, strip_name_no_leading_space.
Qed.

Lemma version_has_no_leading_space_witness :
  no_leading_space "curl (x86_64) 7.68.0"
  /\ no_leading_space (truncate (strip_name "curl" "curl (x86_64) 7.68.0")).
Proof.
  exact (version_has_no_leading_space curl_world "curl"
           "curl (x86_64) 7.68.0" eq_refl).
Defined.

Lemma first_line_single (s : string) : single_line (Py.first_line s).
Proof.
  unfold single_line. induction s as [|c s IH]; simpl; [reflexivity|].
  destruct (Ascii.eqb c Py.LF) eqn:Hc; [reflexivity|].
  simpl. now rewrite Hc, IH.
Qed.

Lemma single_line_suffix (p s : string) :
  single_line (p ++ s) -> single_line s.
Proof.
  unfold single_line. induction p as [|c p IH]; simpl; [trivial|].
  destruct (Ascii.eqb c Py.LF); [discriminate|].
  intros [= H]. now apply IH.
Qed.

Lemma single_line_app (a b : string) :
  single_line a -> single_line b -> single_line (a ++ b).
Proof.
  unfold single_line. induction a as [|c a IH]; simpl; [trivial|].
  destruct (Ascii.eqb c Py.LF); [discriminate|].
  intros [= Ha] Hb. now rewrite IH.
Qed.

Lemma single_line_take (n : nat) (s : string) :
  single_line s -> single_line (Py.take n s).
Proof.
  unfold single_line, Py.take. revert s.
  induction n as [|n IH]; intros [|c s]; simpl; try reflexivity.
  destruct (Ascii.eqb c Py.LF); [discriminate|].
  intros [= H]. now rewrite IH.
Qed.

(** X11. For a name other than [node], the version text returned holds
    no line feed, however many lines the tool printed, and so does the
    text displayed: the report of such a name stays on one line. *)
Theorem version_is_single_line (env : Env) (cmd version : string) :
  cmd <> "node" ->
  result (get_command_version env cmd) = Val (Some version) ->
  single_line version
  /\ single_line (truncate (strip_name cmd version)).
Proof.
  intros Hn H.
  assert (Hv : single_line version).
  { destruct (get_command_version_value env cmd version H)
      as [[Hc _] | [-> | [out ->]]].
    - contradiction.
    - reflexivity.
    - apply first_line_single. }
  split; [exact Hv|].
  assert (Hs : single_line (strip_name cmd version)).
  { destruct (strip_name_suffix cmd version) as (removed & Hr & _).
    rewrite Hr in Hv. now apply single_line_suffix in Hv. }
  unfold truncate. destruct (_ && _); [|exact Hs].
  apply single_line_app; [now apply single_line_take | reflexivity].
Qed.

Lemma version_is_single_line_witness :
  single_line "curl (x86_64) 7.68.0"
  /\ single_line (truncate (strip_name "curl" "curl (x86_64) 7.68.0")).
Proof.
  apply (version_is_single_line curl_world "curl" "curl (x86_64) 7.68.0").
  - discriminate.
  - reflexivity.
Defined.

(** *** The special cases *)

Lemma builtin_name_facts (cmd : string) :
  Py.member cmd shell_builtins = true ->
  String.eqb cmd "node" = false
  /\ strip_name cmd "shell builtin" = "shell builtin".
Proof.
  unfold Py.member. intros H. apply existsb_exists in H.
  destruct H as (name & Hin & Heq). apply String.eqb_eq in Heq. subst name.
  assert (Hall : forallb
            (fun c => negb (String.eqb c "node")
                      && String.eqb (strip_name c "shell builtin") "shell builtin")
            shell_builtins = true) by (vm_compute; reflexivity).
  rewrite forallb_forall in Hall. specialize (Hall cmd Hin).
  apply andb_prop in Hall. destruct Hall as [Hn Hs].
  split; [now apply negb_true_iff in Hn | now apply String.eqb_eq in Hs].
Qed.

(** X12. For a name of the builtin list that is on the path, when
    [bash -c "type NAME"] exits with status zero and its output contains
    ["shell builtin"], that call is the only process spawned and the
    name is reported with the version text ["shell builtin"], left
    whole by the stripping step. *)
Theorem builtin_reported (env : Env) (cmd out : string) :
  which env cmd = true ->
  Py.member cmd shell_builtins = true ->
  run env ["bash"; "-c"; "type " ++ cmd] = Completes (mkCompleted 0 out) ->
  Py.contains "shell builtin" out = true ->
  detect_command env cmd
  = ([Which cmd; Spawn ["bash"; "-c"; "type " ++ cmd];
      Print (line_with_version env cmd "shell builtin")],
     Val true).
Proof.
  intros H Hm Hrun Hout.
  destruct (builtin_name_facts cmd Hm) as [Hn Hs].
  apply (detect_command_found env cmd [Spawn ["bash"; "-c"; "type " ++ cmd]]
           (Some "shell builtin")) in H.
  - rewrite H. unfold found_line. cbn [Py.truthy]. now rewrite Hs.
  - assert (Hbc : builtin_case env cmd
                  = ([Spawn ["bash"; "-c"; "type " ++ cmd]],
                     Val (Some "shell builtin"))).
    { unfold builtin_case. rewrite Hm.
      unfold subprocess_run, builtin_argv, try_except, bind. rewrite Hrun.
      cbn [returncode stdout Z.eqb andb]. rewrite Hout. reflexivity. }
    unfold get_command_version, node_case. rewrite Hn.
    unfold ret. rewrite or_next_fall, Hbc, or_next_return. reflexivity.
Qed.

Lemma builtin_reported_witness :
  detect_command mixed_world "cd"
  = ([Which "cd"; Spawn ["bash"; "-c"; "type cd"];
      Print (CHECKMARK ++ " cd shell builtin")], Val true).
Proof.
  exact (builtin_reported mixed_world "cd" ("cd is a shell builtin" ++ NL)
           eq_refl eq_refl eq_refl eq_refl).
Defined.

(** X13. When the evaluation call of [node] gives up (non-zero exit, or
    an exception of the handled classes such as the timeout),
    [get_command_version] goes on to the flag sweep for [node] and
    returns what the sweep returns. *)
Theorem node_falls_back_to_sweep (env : Env) :
  node_gives_up env ->
  get_command_version env "node"
  = ((Spawn ["node"; "-e"; "console.log(process.version)"]
      :: trace (flag_sweep env "node" version_flags))%list,
     result (flag_sweep env "node" version_flags)).
Proof.
  unfold node_gives_up. intros H.
  assert (Hn : node_case env "node"
               = ([Spawn ["node"; "-e"; "console.log(process.version)"]],
                  Val None)).
  { unfold node_case. rewrite String.eqb_refl.
    unfold subprocess_run, try_except, bind, node_argv.
    destruct (run env ["node"; "-e"; "console.log(process.version)"])
      as [[rc out]|e]; simpl in *.
    - destruct (Z.eqb_spec rc 0); [contradiction | reflexivity].
    - now rewrite H. }
  unfold get_command_version. rewrite Hn, or_next_fall.
  assert (Hb : builtin_case env "node" = ([], Val None)) by reflexivity.
  rewrite Hb, or_next_fall. reflexivity.
Qed.

Lemma node_falls_back_to_sweep_witness :
  get_command_version mixed_world "node"
  = ([Spawn ["node"; "-e"; "console.log(process.version)"];
      Spawn ["node"; "--version"]], Val (Some "v18.19.0")).
Proof.
  exact (node_falls_back_to_sweep mixed_world eq_refl).
Defined.

(** X14. The sweep ends at the first attempt that exits with status zero
    and prints anything at all.  When that output is only white space,
    the version text is empty: the name is reported without version and
    the flags after it are never tried. *)
Theorem blank_output_ends_sweep (env : Env) (cmd : string)
    (before : list string) (flag : string) (after : list string)
    (out : string) :
  which env cmd = true ->
  cmd <> "node" ->
  Py.member cmd shell_builtins = false ->
  version_flags = (before ++ flag :: after)%list ->
  (forall f, In f before -> no_result env [cmd; f]) ->
  run env [cmd; flag] = Completes (mkCompleted 0 out) ->
  out <> "" ->
  Py.strip out = "" ->
  detect_command env cmd
  = ((Which cmd :: map (spawn_flag cmd) (before ++ [flag])
      ++ [Print (line_without_version env cmd)])%list,
     Val true).
Proof.
  intros H Hn Hb Hflags Hbefore Hrun Hout Hblank.
  apply (detect_command_found env cmd _ (Some "") H).
  rewrite (get_command_version_ordinary env cmd Hn Hb), Hflags.
  rewrite (flag_sweep_first_success env cmd before flag after out
             Hbefore Hrun Hout).
  now rewrite Hblank.
Qed.

Lemma blank_output_ends_sweep_witness :
  detect_command blank_line_world "tool"
  = ([Which "tool"; Spawn ["tool"; "--version"];
      Print (CHECKMARK ++ " tool")], Val true)
  /\ run blank_line_world ["tool"; "-v"]
     = Completes (mkCompleted 0 ("tool 3.1" ++ NL)).
Proof.
  split; [|reflexivity].
  refine (blank_output_ends_sweep blank_line_world "tool" [] "--version"
            ["-version"; "-v"; "version"; "-V"] NL
            eq_refl _ eq_refl eq_refl _ eq_refl _ eq_refl).
  - discriminate.
  - intros f [].
  - discriminate.
Defined.

(** *** Decorations *)

(** X15. [setup_colors] gives all five decorations or none.  When the
    output is not a terminal, or [curses] cannot be set up, all are
    empty and the three report lines are the mark, the name and the
    text, separated by single blanks; when both hold, they are the ANSI
    sequences of the codes 0, 1, 31, 32, 33. *)
Theorem decorations_all_or_none (env : Env) (cmd version : string) :
  (isatty env = false \/ curses_ok env = false ->
   COLORS env = no_colors
   /\ line_with_version env cmd version
      = CHECKMARK ++ " " ++ cmd ++ " " ++ version
   /\ line_without_version env cmd = CHECKMARK ++ " " ++ cmd
   /\ line_not_found env cmd = FANCYX ++ " " ++ cmd ++ " command not found")
  /\ (isatty env = true -> curses_ok env = true ->
      COLORS env
      = mkColors (ESC ++ "[0m") (ESC ++ "[1m") (ESC ++ "[31m")
          (ESC ++ "[32m") (ESC ++ "[33m")).
Proof.
  split.
  - intros Hplain.
    assert (Hc : COLORS env = no_colors).
    { unfold COLORS, setup_colors.
      destruct Hplain as [-> | ->]; [reflexivity|].
      now destruct (isatty env). }
    split; [exact Hc|].
    unfold line_with_version, line_without_version, line_not_found, PASS, FAIL.
    rewrite Hc. simpl. now rewrite !append_nil_r.
  - intros Ht Hc. unfold COLORS, setup_colors. now rewrite Ht, Hc.
Qed.

Lemma decorations_all_or_none_witness :
  line_not_found empty_world "nope" = FANCYX ++ " nope command not found".
Proof.
  exact (proj2 (proj2 (proj2
           (proj1 (decorations_all_or_none empty_world "nope" "")
              (or_introl eq_refl))))).
Defined.
